(** * github3.pulls

    A shallow embedding of [github3/pulls.py]: the pull request object, its
    two endpoints, the files it touches and review comments, together with
    the mutating actions ([update], [close], [reopen], [merge]), the
    [is_merged] probe and the [diff] and [patch] downloads.

    Python objects are attribute dictionaries ([gmap string Value]) that the
    constructor fills in by successive assignments, because
    [PullRequest._update_] re-runs [__init__] on the live object.  Decoded
    JSON is the type [Json]; exceptions are the type [Exn]; network traffic is
    a log of requests kept next to the object.

    A character of a string is a Unicode code point below U+0100, so a
    string is a Python 3 [str] over that range (a string literal with a
    character outside ASCII is not such a string: the character with code
    point 239 is written ["239"]).  The character classes of the regular
    expression are those of Python 3 for a [str] pattern, which are
    Unicode-aware, on that range.  JSON numbers are integers, as the ids and
    counts of the payloads are. *)

From Stdlib Require Import ZArith Ascii String.
From stdpp Require Import base option list strings gmap.

(** ** Decoded JSON *)

#[warnings="-register-all"] Inductive Json : Type :=
| JNull
| JBool (b : bool)
| JNum (n : Z)
| JStr (s : string)
| JList (l : list Json)
| JObj (d : list (string * Json)).

(** A decoded JSON object is a Python [dict]; it is kept as an association
    list in which the first binding of a key is the one in force. *)
Abbreviation dict := (list (string * Json)).

Fixpoint dict_lookup (k : string) (d : dict) : option Json :=
  match d with
  | [] => None
  | (k', v) :: d' => if String.eqb k k' then Some v else dict_lookup k d'
  end.

(** [d.get(k, default)] and [d.get(k)]. *)
Definition get_default (d : dict) (k : string) (dflt : Json) : Json :=
  match dict_lookup k d with Some v => v | None => dflt end.

Definition get (d : dict) (k : string) : Json := get_default d k JNull.

(** Python truth value of a decoded JSON value. *)
Definition truthy (j : Json) : bool :=
  match j with
  | JNull => false
  | JBool b => b
  | JNum n => negb (n =? 0)%Z
  | JStr s => negb (String.eqb s EmptyString)
  | JList l => match l with [] => false | _ => true end
  | JObj d => match d with [] => false | _ => true end
  end.

(** ** Exceptions *)

Inductive Exn : Type :=
| AttributeError
| TypeError
| NameError
| KeyError
| AuthorizationError
| TransportError (status : Z).

Inductive Res (A : Type) : Type :=
| Ok (a : A)
| Raise (e : Exn).
Arguments Ok {A} a.
Arguments Raise {A} e.

#[global] Instance Res_ret : MRet Res := fun A a => Ok a.
#[global] Instance Res_bind : MBind Res := fun A B f m =>
  match m with Ok a => f a | Raise e => Raise e end.
#[global] Instance Res_fmap : FMap Res := fun A B f m =>
  match m with Ok a => Ok (f a) | Raise e => Raise e end.

Definition is_ok {A} (r : Res A) : bool :=
  match r with Ok _ => true | Raise _ => false end.

(** [j.get(k)] on an arbitrary decoded value: only a dict has [get]. *)
Definition py_get (j : Json) (k : string) : Res Json :=
  match j with
  | JObj d => Ok (get d k)
  | _ => Raise AttributeError
  end.

(** [j[k]] with a string key, on a value already known to be subscriptable
    or not: a dict raises [KeyError] on a missing key, anything else rejects
    the string index. *)
Definition py_getitem (j : Json) (k : string) : Res Json :=
  match j with
  | JObj d => match dict_lookup k d with Some v => Ok v | None => Raise KeyError end
  | _ => Raise TypeError
  end.

(** [iter(j)]: the elements a [for] loop visits.  A list yields its items, a
    string its characters, a dict its keys; [None], booleans and numbers are
    not iterable. *)
Definition py_iter (j : Json) : Res (list Json) :=
  match j with
  | JList l => Ok l
  | JStr s => Ok ((fun c => JStr (String c EmptyString)) <$> list_ascii_of_string s)
  | JObj d => Ok ((fun kv => JStr kv.1) <$> d)
  | JNull | JBool _ | JNum _ => Raise TypeError
  end.

(** ** Strings *)

(** [s.replace(old, new)]: every non-overlapping occurrence of [old], found
    left to right, is replaced.  [skip] counts the characters of an occurrence
    that were already consumed. *)
Fixpoint replace_from (old new : string) (skip : nat) (s : string) : string :=
  match s with
  | EmptyString => match old with EmptyString => new | _ => EmptyString end
  | String c s' =>
      match skip with
      | S n => replace_from old new n s'
      | O =>
          match old with
          | EmptyString => new +:+ String c (replace_from old new 0 s')
          | String _ old' =>
              if String.prefix old s
              then new +:+ replace_from old new (String.length old') s'
              else String c (replace_from old new 0 s')
          end
      end
  end.

Definition replace (s old new : string) : string := replace_from old new 0 s.

(** ['/'.join([a, b])]. *)
Definition join_slash (a b : string) : string := a +:+ "/" +:+ b.

(** ** Regular expressions, as far as [re.match] is used here

    The matcher is a backtracking one in continuation-passing style: it
    returns the first match in Python's priority order (greedy repetition,
    greedy option, left alternative first) and the text of the groups. *)

Inductive regex : Type :=
| Lit (t : string)
| Plus (cls : ascii -> bool)
| Group (r : regex)
| Seq (r1 r2 : regex)
| Alt (r1 r2 : regex)
| Opt (r : regex).

Definition in_range (lo hi : N) (c : ascii) : bool :=
  ((lo <=? N_of_ascii c)%N && (N_of_ascii c <=? hi)%N)%bool.

(** [\d], [\w] and [\s] in a [str] pattern, as Python 3 matches them: by
    the Unicode properties of the character, here for the code points below
    U+0100.

    [\d] is a decimal digit (category Nd): below U+0100 these are U+0030 to
    U+0039 only; the superscripts and fractions are not decimal. *)
Definition is_digit (c : ascii) : bool := in_range 48 57 c.

(** [str.isalnum] of one character: a letter, or a character with a decimal,
    digit or numeric value.  Beyond the ASCII letters and digits these are
    U+00AA, U+00B5 and U+00BA (letters), U+00B2, U+00B3 and U+00B9
    (superscript digits), U+00BC to U+00BE (fractions) and the letters U+00C0
    to U+00FF, which leave out the signs U+00D7 and U+00F7. *)
Definition is_alnum (c : ascii) : bool :=
  (in_range 97 122 c || in_range 65 90 c || is_digit c
   || in_range 170 170 c || in_range 178 179 c || in_range 181 181 c
   || in_range 185 186 c || in_range 188 190 c
   || in_range 192 214 c || in_range 216 246 c || in_range 248 255 c)%bool.

(** [\w]: alphanumeric or the underscore. *)
Definition is_word (c : ascii) : bool := (is_alnum c || Ascii.eqb c "_")%bool.

(** [\s] is [str.isspace] of the character: U+0009 to U+000D, the
    separators U+001C to U+001F, the space, U+0085 and U+00A0. *)
Definition is_space (c : ascii) : bool :=
  (in_range 9 13 c || in_range 28 32 c || in_range 133 133 c
   || in_range 160 160 c)%bool.

Definition non_space (c : ascii) : bool := negb (is_space c).

(** The class [[\w\d\-\.\:]]. *)
Definition host_char (c : ascii) : bool :=
  (is_word c || is_digit c || Ascii.eqb c "-" || Ascii.eqb c "." || Ascii.eqb c ":")%bool.

Fixpoint strip_prefix (t s : string) : option string :=
  match t, s with
  | EmptyString, _ => Some s
  | String a t', String b s' => if Ascii.eqb a b then strip_prefix t' s' else None
  | String _ _, EmptyString => None
  end.

(** One or more characters of a class, the longest run first. *)
Fixpoint plus_greedy {R} (cls : ascii -> bool) (s : string) (k : string -> option R)
  : option R :=
  match s with
  | String c s' =>
      if cls c
      then match plus_greedy cls s' k with
           | Some r => Some r
           | None => k s'
           end
      else None
  | EmptyString => None
  end.

(** The text between the start [s] of a group and what is left, [rest], when
    the group closes. *)
Definition consumed (s rest : string) : string :=
  substring 0 (String.length s - String.length rest) s.

Fixpoint rmatch (r : regex) (s : string) (caps : list string)
    (k : string -> list string -> option (list string)) : option (list string) :=
  match r with
  | Lit t =>
      match strip_prefix t s with
      | Some rest => k rest caps
      | None => None
      end
  | Plus cls => plus_greedy cls s (fun rest => k rest caps)
  | Group r1 => rmatch r1 s caps (fun rest caps' => k rest (caps' ++ [consumed s rest]))
  | Seq r1 r2 => rmatch r1 s caps (fun rest caps' => rmatch r2 rest caps' k)
  | Alt r1 r2 =>
      match rmatch r1 s caps k with
      | Some g => Some g
      | None => rmatch r2 s caps k
      end
  | Opt r1 =>
      match rmatch r1 s caps k with
      | Some g => Some g
      | None => k s caps
      end
  end.

(** [re.match(r, s)]: anchored at the start only; [Some groups] stands for a
    match object and its [groups()], [None] for no match. *)
Definition re_match (r : regex) (s : string) : option (list string) :=
  rmatch r s [] (fun _ caps => Some caps).

(** ['https://[\w\d\-\.\:]+/(\S+)/(\S+)/(?:issues|pull)?/\d+'] *)
Definition issue_url_pattern : regex :=
  Seq (Lit "https://")
 (Seq (Plus host_char)
 (Seq (Lit "/")
 (Seq (Group (Plus non_space))
 (Seq (Lit "/")
 (Seq (Group (Plus non_space))
 (Seq (Lit "/")
 (Seq (Opt (Alt (Lit "issues") (Lit "pull")))
 (Seq (Lit "/")
      (Plus is_digit))))))))).

(** ** Timestamps *)

Record DateTime : Type := {
  year : nat; month : nat; day : nat;
  hour : nat; minute : nat; second : nat
}.

Fixpoint digits_value (acc : nat) (s : string) : option nat :=
  match s with
  | EmptyString => Some acc
  | String c s' =>
      if is_digit c
      then digits_value (10 * acc + (nat_of_ascii c - 48)) s'
      else None
  end.

Definition number_at (start len : nat) (s : string) : option nat :=
  digits_value 0 (substring start len s).

Definition parse_time (s : string) : option DateTime :=
  if (String.length s =? 20)%nat
     && String.eqb (substring 4 1 s) "-" && String.eqb (substring 7 1 s) "-"
     && String.eqb (substring 10 1 s) "T" && String.eqb (substring 13 1 s) ":"
     && String.eqb (substring 16 1 s) ":" && String.eqb (substring 19 1 s) "Z"
  then
    y ← number_at 0 4 s; mo ← number_at 5 2 s; d ← number_at 8 2 s;
    h ← number_at 11 2 s; mi ← number_at 14 2 s; se ← number_at 17 2 s;
    if (1 <=? mo)%nat && (mo <=? 12)%nat && (1 <=? d)%nat && (d <=? 31)%nat
       && (h <=? 23)%nat && (mi <=? 59)%nat && (se <=? 61)%nat
    then Some {| year := y; month := mo; day := d;
                 hour := h; minute := mi; second := se |}
    else None
  else None.

(** ** Collaborating classes that live in other modules *)

(** Modelled from the spec: the class [User] of [github3/users.py] is not
    among the sources.  A nested user is "recursively decoded into its own
    typed representation"; here that representation keeps the decoded object
    it was built from. *)
Module User.
Record t : Type := { json : Json }.
Definition __init__ (user : Json) : t := {| json := user |}.
End User.

(** The session of [github3/session.py], as far as this module looks at it:
    whether it carries credentials. *)
Record Session : Type := { authenticated : bool }.

Definition anonymous : Session := {| authenticated := false |}.

(** ** PullDestination *)

Module PullDestination.

Record t : Type := {
  direction : string;
  ref : Json;
  label : Json;
  user : option User.t;
  sha : Json;
  _repo_name : Json;
  _repo_owner : Json;
  repo : Json * Json
}.

(** [PullDestination(dest, direction)].  The object is new and is dropped
    when the constructor raises, so the constructor is a function to
    [Res].  [dest] is whatever [pull.get('base')] gave, [None] included;
    the initialiser of the base class, which is handed no session here, is
    left out. *)
Definition __init__ (dest : Json) (direction : string) : Res t :=
  ref ← py_get dest "ref";
  label ← py_get dest "label";
  u ← py_get dest "user";
  let user := if truthy u then Some (User.__init__ u) else None in
  sha ← py_get dest "sha";
  r ← py_get dest "repo";
  '(owner, name) ←
    (if truthy r
     then
       name ← py_get r "name";
       o ← py_getitem r "owner";
       login ← py_get o "login";
       mret (login, name)
     else mret (JStr EmptyString, JStr EmptyString));
  mret {| direction := direction; ref := ref; label := label; user := user;
          sha := sha; _repo_name := name; _repo_owner := owner;
          repo := (owner, name) |}.

End PullDestination.

(** ** PullFile *)

Module PullFile.

Record t : Type := {
  sha : Json;
  filename : Json;
  status : Json;
  additions : Json;
  deletions : Json;
  changes : Json;
  blob_url : Json;
  raw_url : Json;
  patch : Json
}.

(** [PullFile(pfile)]: nine [pfile.get(..)], the first of which raises
    when [pfile] is not a dict.  The initialiser of the base class is left
    out, as for [PullDestination]. *)
Definition __init__ (pfile : Json) : Res t :=
  sha ← py_get pfile "sha";
  filename ← py_get pfile "filename";
  status ← py_get pfile "status";
  additions ← py_get pfile "additions";
  deletions ← py_get pfile "deletions";
  changes ← py_get pfile "changes";
  blob_url ← py_get pfile "blob_url";
  raw_url ← py_get pfile "raw_url";
  patch ← py_get pfile "patch";
  mret {| sha := sha; filename := filename; status := status;
          additions := additions; deletions := deletions; changes := changes;
          blob_url := blob_url; raw_url := raw_url; patch := patch |}.

End PullFile.

(** ** Python values held by attributes *)

#[warnings="-register-all"] Inductive Value : Type :=
| VJson (j : Json)                      (* a decoded value kept as it came *)
| VUser (u : User.t)
| VDest (d : PullDestination.t)
| VDate (t : DateTime)
| VTemplate (uri : Json)                (* URITemplate(uri) *)
| VTuple (l : list Value)
| VList (l : list Value)
| VDict (d : list (string * Value))
| VSession (s : Session).

Abbreviation VNone := (VJson JNull).

Definition truthy_value (v : Value) : bool :=
  match v with
  | VJson j => truthy j
  | VTuple l | VList l => match l with [] => false | _ => true end
  | VDict d => match d with [] => false | _ => true end
  | VUser _ | VDest _ | VDate _ | VTemplate _ | VSession _ => true
  end.

(** Modelled from the spec: [GitHubObject._strptime] of [github3/models.py]
    is not among the sources.  "Timestamps are parsed from an ISO-8601-like
    string format into a structured date-time value, or null if absent or
    unparseable." *)
Definition _strptime (time_str : Json) : Value :=
  match time_str with
  | JStr s => match parse_time s with Some t => VDate t | None => VNone end
  | _ => VNone
  end.

(** ** Objects, the wire, and the monad of methods *)

Inductive Verb : Type := GET | PUT | PATCH.

Record Request : Type := {
  verb : Verb;
  url : Value;
  data : option Json
}.

Record Response : Type := {
  status_code : Z;
  content : option Json      (* [None]: an empty body *)
}.

(** The state a method runs in: the attributes of [self] and the requests
    sent so far, most recent last. *)
Record State : Type := {
  attrs : gmap string Value;
  sent : list Request
}.

Definition M (A : Type) : Type := State -> Res A * State.

#[global] Instance M_ret : MRet M := fun A a st => (Ok a, st).
#[global] Instance M_bind : MBind M := fun A B f m st =>
  match m st with
  | (Ok a, st') => f a st'
  | (Raise e, st') => (Raise e, st')
  end.

Definition lift {A} (r : Res A) : M A := fun st => (r, st).

(** [self.k = v] *)
Definition setattr (k : string) (v : Value) : M unit :=
  fun st => (Ok tt, {| attrs := <[k := v]> (attrs st); sent := sent st |}).

(** [self.k] *)
Definition getattr (k : string) : M Value :=
  fun st => match attrs st !! k with
            | Some v => (Ok v, st)
            | None => (Raise AttributeError, st)
            end.

Definition when (b : bool) (m : M unit) : M unit := if b then m else mret tt.

(** A value used as the receiver of a [str] method. *)
Definition str_receiver (v : Value) : Res string :=
  match v with
  | VJson (JStr s) => Ok s
  | _ => Raise AttributeError
  end.

(** A value passed where [re] wants a string. *)
Definition str_argument (v : Value) : Res string :=
  match v with
  | VJson (JStr s) => Ok s
  | _ => Raise TypeError
  end.

(** ** The base class, [github3/models.py]

    None of it is among the sources; each definition says which words of the
    specification it follows. *)
Module GitHubCore.

(** Modelled from the spec: [GitHubCore.__init__] is missing.  What this
    module relies on is that the object keeps the session it was built
    with, an anonymous one when none is given. *)
Definition __init__ (json : Json) (session : Value) : M unit :=
  setattr "_session"
    (match session with VNone => VSession anonymous | s => s end).

(** Modelled from the spec: [GitHubCore._boolean] is missing.  "Interprets
    presence (success status) vs absence (not-found status) as the boolean
    result; any other status is an error", the error being the transport
    error of section 7. *)
Definition _boolean (response : Response) (true_code false_code : Z) : Res bool :=
  if (status_code response =? true_code)%Z then Ok true
  else if (status_code response =? false_code)%Z then Ok false
  else Raise (TransportError (status_code response)).

(** Modelled from the spec: [GitHubCore._json] is missing.  The decoded
    body when the status is the expected one and there is a body; [None]
    for "an empty or absent response body" and for not-found; a transport
    error for an unexpected status. *)
Definition _json (response : Response) (status_code : Z) : Res Json :=
  b ← _boolean response status_code 404;
  mret (if b : bool then default JNull (content response) else JNull).

(** Modelled from the spec: [GitHubCore._remove_none] is missing.  "Fields
    omitted (null) are excluded from the submitted payload entirely." *)
Definition is_none (v : Value) : bool :=
  match v with VNone => true | _ => false end.

Definition _remove_none (data : list (string * Value)) : list (string * Value) :=
  filter (fun kv => negb (is_none kv.2)) data.

(** Modelled from the spec: [GitHubCore._build_url] is missing.  "Given the
    resource's canonical API URL and a relative suffix, produce the
    sub-resource URL by joining with /"; joining needs strings. *)
Definition _build_url (suffix : string) (base_url : Value) : Res string :=
  match base_url with
  | VJson (JStr b) => Ok (join_slash b suffix)
  | _ => Raise TypeError
  end.

(** The transport.  [server] answers a request; sending one appends it to
    the log. *)
Section Transport.
Variable server : Request -> Response.

Definition send (v : Verb) (url : Value) (data : option Json) : M Response :=
  fun st =>
    let rq := {| verb := v; url := url; data := data |} in
    (Ok (server rq), {| attrs := attrs st; sent := sent st ++ [rq] |}).

Definition _get (url : Value) : M Response := send GET url None.
Definition _put (url : Value) (data : option Json) : M Response := send PUT url data.
Definition _patch (url : Value) (data : option Json) : M Response := send PATCH url data.
End Transport.

(** [self._get(url, headers=h)]: a request with headers of its own.  What
    the server answers may depend on them; the log keeps the request. *)
Definition _get_headers (server : list (string * string) -> Request -> Response)
    (url : Value) (headers : list (string * string)) : M Response :=
  send (server headers) GET url None.

End GitHubCore.

(** Modelled from the spec: the decorator [requires_auth] of
    [github3/decorators.py] is not among the sources.  "Calling without
    authentication fails fast with an authorization error rather than
    attempting the request."  A caller is authenticated when the session the
    object keeps carries credentials. *)
Definition is_authenticated (st : State) : bool :=
  match attrs st !! "_session" with
  | Some (VSession s) => authenticated s
  | _ => false
  end.

Definition requires_auth {A} (func : M A) : M A :=
  fun st =>
    if is_authenticated st then func st else (Raise AuthorizationError, st).

(** [json.dumps]: the request carries the JSON text of a value, kept here as
    that value.  Objects of the library are not serialisable. *)
Fixpoint to_json (v : Value) : Res Json :=
  match v with
  | VJson j => Ok j
  | VTuple l | VList l =>
      JList <$> (fix items (l : list Value) : Res (list Json) :=
                   match l with
                   | [] => Ok []
                   | x :: l' => j ← to_json x; js ← items l'; mret (j :: js)
                   end) l
  | VDict d =>
      JObj <$> (fix items (d : list (string * Value)) : Res dict :=
                  match d with
                  | [] => Ok []
                  | (k, x) :: d' => j ← to_json x; js ← items d'; mret ((k, j) :: js)
                  end) d
  | VUser _ | VDest _ | VDate _ | VTemplate _ | VSession _ => Raise TypeError
  end.

Definition dumps (data : list (string * Value)) : Res Json := to_json (VDict data).

(** ** PullRequest: construction *)

Module PullRequest.

(** [[Label(l, self._session) for l in labels]]: the name [Label] is bound
    nowhere in the module (it is neither defined nor imported), so
    evaluating the element expression raises [NameError]; with nothing to
    visit it is never evaluated. *)
Definition label_objects (labels : list Json) : Res (list Value) :=
  match labels with
  | [] => Ok []
  | _ :: _ => Raise NameError
  end.

(** [m.groups()] on the result of [match]. *)
Definition groups (m : option (list string)) : Res Value :=
  match m with
  | Some g => Ok (VTuple ((fun s => VJson (JStr s)) <$> g))
  | None => Raise AttributeError
  end.

(** [PullRequest.__init__(self, pull, session)], assignment by assignment.
    Every access to [pull] is [pull.get(..)], the first one on line 101, so
    a [pull] that is not a dict raises there.  [self.user] and
    [self.assignee] are tested right after they are assigned; the test and
    the argument of [User] are the value just stored. *)
Definition __init__ (pull : Json) (session : Value) : M unit :=
  GitHubCore.__init__ pull session;;
  pull ← lift (match pull with JObj d => Ok d | _ => Raise AttributeError end);
  setattr "_api" (VJson (get_default pull "url" (JStr EmptyString)));;
  base ← lift (PullDestination.__init__ (get pull "base") "Base");
  setattr "base" (VDest base);;
  setattr "body" (VJson (get_default pull "body" (JStr EmptyString)));;
  setattr "body_html" (VJson (get_default pull "body_html" (JStr EmptyString)));;
  setattr "body_text" (VJson (get_default pull "body_text" (JStr EmptyString)));;
  setattr "additions" (VJson (get pull "additions"));;
  setattr "deletions" (VJson (get pull "deletions"));;
  setattr "closed_at" (_strptime (get pull "closed_at"));;
  setattr "comments" (VJson (get pull "comments"));;
  setattr "comments_url" (VJson (get pull "comments_url"));;
  setattr "commits" (VJson (get pull "commits"));;
  setattr "commits_url" (VJson (get pull "commits_url"));;
  setattr "created_at" (_strptime (get pull "created_at"));;
  setattr "diff_url" (VJson (get pull "diff_url"));;
  head ← lift (PullDestination.__init__ (get pull "head") "Head");
  setattr "head" (VDest head);;
  setattr "html_url" (VJson (get pull "html_url"));;
  setattr "id" (VJson (get pull "id"));;
  elems ← lift (py_iter (get pull "labels"));
  labels ← lift (label_objects elems);
  setattr "labels" (VList labels);;
  let labels_url := get pull "labels_url" in
  setattr "labels_urlt"
    (if truthy labels_url then VTemplate labels_url else VNone);;
  setattr "issue_url" (VJson (get pull "issue_url"));;
  setattr "statuses_url" (VJson (get pull "statuses_url"));;
  (* the links dictionary, entry by entry *)
  l_self ← getattr "_api";
  api ← getattr "_api";
  api ← lift (str_receiver api);
  let l_comments := join_slash (replace api "pulls" "issues") "comments" in
  api ← getattr "_api";
  api ← lift (str_receiver api);
  let l_issue := replace api "pulls" "issues" in
  l_html ← getattr "html_url";
  api ← getattr "_api";
  api ← lift (str_receiver api);
  let l_review_comments := api +:+ "/comments" in
  setattr "links"
    (VDict [("self", l_self);
            ("comments", VJson (JStr l_comments));
            ("issue", VJson (JStr l_issue));
            ("html", l_html);
            ("review_comments", VJson (JStr l_review_comments))]);;
  setattr "merged_at" (_strptime (get pull "merged_at"));;
  setattr "mergeable" (VJson (get_default pull "mergeable" (JBool false)));;
  setattr "mergeable_state" (VJson (get_default pull "mergeable_state" (JStr EmptyString)));;
  setattr "merge_commit_sha" (VJson (get_default pull "merge_commit_sha" (JStr EmptyString)));;
  let user := get pull "merged_by" in
  setattr "merged_by"
    (if truthy user then VUser (User.__init__ user) else VNone);;
  setattr "number" (VJson (get pull "number"));;
  setattr "patch_url" (VJson (get pull "patch_url"));;
  let comments := get pull "review_comment_url" in
  setattr "review_comment_url"
    (if truthy comments then VTemplate comments else VNone);;
  setattr "review_comments" (VJson (get pull "review_comments"));;
  setattr "review_comments_url" (VJson (get pull "review_comments_url"));;
  issue_url ← getattr "issue_url";
  issue_url ← lift (str_argument issue_url);
  let m := re_match issue_url_pattern issue_url in
  repository ← lift (groups m);
  setattr "repository" repository;;
  setattr "state" (VJson (get pull "state"));;
  setattr "title" (VJson (get pull "title"));;
  setattr "updated_at" (_strptime (get pull "updated_at"));;
  let user := get pull "user" in
  setattr "user" (VJson user);;
  when (truthy user) (setattr "user" (VUser (User.__init__ user)));;
  let assignee := get pull "assignee" in
  setattr "assignee" (VJson assignee);;
  when (truthy assignee) (setattr "assignee" (VUser (User.__init__ assignee))).

(** [PullRequest(pull, session)]: a new object, or the exception that
    escaped the constructor. *)
Definition new (pull : Json) (session : Value) : Res (gmap string Value) :=
  match __init__ pull session {| attrs := ∅; sent := [] |} with
  | (Ok _, st) => Ok (attrs st)
  | (Raise e, _) => Raise e
  end.

(** *** Methods *)
Section Methods.
Variable server : Request -> Response.

Definition _update_ (pull : Json) : M unit :=
  session ← getattr "_session";
  __init__ pull session.

Definition update (title body state : Value) : M bool :=
  requires_auth (
    let data := [("title", title); ("body", body); ("state", state)] in
    let json := JNull in
    let data := GitHubCore._remove_none data in
    json ←
      (if truthy_value (VDict data)
       then
         api ← getattr "_api";
         payload ← lift (dumps data);
         response ← GitHubCore._patch server api (Some payload);
         lift (GitHubCore._json response 200)
       else mret json);
    if truthy json
    then _update_ json;; mret true
    else mret false).

Definition close : M bool :=
  requires_auth (
    title ← getattr "title";
    body ← getattr "body";
    update title body (VJson (JStr "closed"))).

Definition reopen : M bool :=
  requires_auth (
    title ← getattr "title";
    body ← getattr "body";
    update title body (VJson (JStr "open"))).

Definition is_merged : M bool :=
  api ← getattr "_api";
  url ← lift (GitHubCore._build_url "merge" api);
  response ← GitHubCore._get server (VJson (JStr url));
  lift (GitHubCore._boolean response 204 404).

Definition merge (commit_message : Value) : M Json :=
  requires_auth (
    let data := None in
    data ←
      (if truthy_value commit_message
       then payload ← lift (dumps [("commit_message", commit_message)]);
            mret (Some payload)
       else mret data);
    api ← getattr "_api";
    url ← lift (GitHubCore._build_url "merge" api);
    response ← GitHubCore._put server (VJson (JStr url)) data;
    json ← lift (GitHubCore._json response 200);
    sha ← lift (py_getitem json "sha");
    setattr "merge_commit_sha" (VJson sha);;
    lift (py_getitem json "merged")).

End Methods.

(** *** The diff and the patch

    Both ask for the API URL itself and differ in the [Accept] header.  The
    result is [resp.content], the body as the transport has it, or
    [None]. *)
Section Downloads.
Variable server : list (string * string) -> Request -> Response.

Definition diff : M (option (option Json)) :=
  api ← getattr "_api";
  resp ← GitHubCore._get_headers server api
           [("Accept", "application/vnd.github.diff")];
  b ← lift (GitHubCore._boolean resp 200 404);
  mret (if b : bool then Some (content resp) else None).

Definition patch : M (option (option Json)) :=
  api ← getattr "_api";
  resp ← GitHubCore._get_headers server api
           [("Accept", "application/vnd.github.patch")];
  b ← lift (GitHubCore._boolean resp 200 404);
  mret (if b : bool then Some (content resp) else None).

End Downloads.

End PullRequest.

(** ** ReviewComment *)

(** [a or b] *)
Definition py_or (a b : Json) : Json := if truthy a then a else b.

(** Modelled from the spec: [BaseComment] of [github3/models.py] is not among
    the sources.  A comment's "identity is the comment's unique id (inherited
    from a generic comment base entity not specified here)": the base
    initialiser keeps the session and the id. *)
Module BaseComment.
Definition __init__ (comment : Json) (session : Value) : M unit :=
  GitHubCore.__init__ comment session;;
  id ← lift (py_get comment "id");
  setattr "id" (VJson id).
End BaseComment.

Module ReviewComment.

Definition __init__ (comment : Json) (session : Value) : M unit :=
  BaseComment.__init__ comment session;;
  comment ← lift (match comment with JObj d => Ok d | _ => Raise AttributeError end);
  setattr "user" VNone;;
  when (truthy (get comment "user"))
       (setattr "user" (VUser (User.__init__ (get comment "user"))));;
  setattr "original_position" (VJson (get comment "original_position"));;
  setattr "path" (VJson (get comment "path"));;
  setattr "position" (VJson (py_or (get comment "position") (JNum 0)));;
  setattr "commit_id" (VJson (get comment "commit_id"));;
  setattr "diff_hunk" (VJson (get comment "diff_hunk"));;
  setattr "original_commit_id" (VJson (get comment "original_commit_id")).

Definition new (comment : Json) (session : Value) : Res (gmap string Value) :=
  match __init__ comment session {| attrs := ∅; sent := [] |} with
  | (Ok _, st) => Ok (attrs st)
  | (Raise e, _) => Raise e
  end.

End ReviewComment.

(** ** Sample payloads *)

Definition octocat : Json := JObj [("login", JStr "octocat"); ("id", JNum 1)].

Definition sample_destination (label ref : string) : Json :=
  JObj [("label", JStr label); ("ref", JStr ref); ("sha", JStr "6dcb09b5");
        ("user", octocat);
        ("repo", JObj [("name", JStr "hello"); ("owner", octocat)])].

Definition sample_fields : dict :=
  [("url", JStr "https://api.github.com/repos/octocat/hello/pulls/12");
   ("id", JNum 1347);
   ("html_url", JStr "https://github.com/octocat/hello/pull/12");
   ("issue_url", JStr "https://api.github.com/repos/octocat/hello/issues/12");
   ("number", JNum 12);
   ("state", JStr "open");
   ("title", JStr "new-feature");
   ("body", JStr "Please pull these awesome changes");
   ("created_at", JStr "2011-01-26T19:01:12Z");
   ("labels", JList []);
   ("user", octocat);
   ("head", sample_destination "new-topic" "new-topic");
   ("base", sample_destination "master" "master")].

Definition sample_pull : Json := JObj sample_fields.

(** ** What a pattern matches

    [matches r s rest caps caps']: [r] matches a prefix of [s] and leaves
    [rest]; the groups closed on the way extend [caps] to [caps'].  This is
    the meaning of the pattern, without the search order. *)

Fixpoint string_forall (p : ascii -> bool) (s : string) : bool :=
  match s with
  | EmptyString => true
  | String c s' => p c && string_forall p s'
  end.

Inductive matches : regex -> string -> string -> list string -> list string -> Prop :=
| matches_Lit t rest caps :
    matches (Lit t) (t +:+ rest) rest caps caps
| matches_Plus cls p rest caps :
    p <> EmptyString -> string_forall cls p = true ->
    matches (Plus cls) (p +:+ rest) rest caps caps
| matches_Group r s rest caps caps' :
    matches r s rest caps caps' ->
    matches (Group r) s rest caps (caps' ++ [consumed s rest])
| matches_Seq r1 r2 s mid rest caps caps1 caps2 :
    matches r1 s mid caps caps1 -> matches r2 mid rest caps1 caps2 ->
    matches (Seq r1 r2) s rest caps caps2
| matches_Alt_l r1 r2 s rest caps caps' :
    matches r1 s rest caps caps' -> matches (Alt r1 r2) s rest caps caps'
| matches_Alt_r r1 r2 s rest caps caps' :
    matches r2 s rest caps caps' -> matches (Alt r1 r2) s rest caps caps'
| matches_Opt_some r s rest caps caps' :
    matches r s rest caps caps' -> matches (Opt r) s rest caps caps'
| matches_Opt_none r s caps :
    matches (Opt r) s s caps caps.

(** The shape of an issue URL, written out:
    [https://<host>/<owner>/<repo>/(issues|pull)?/<number>], followed by
    anything. *)
Definition issue_url_shape (url owner repo : string) : Prop :=
  exists host kind number rest,
    url = "https://" +:+ host +:+ "/" +:+ owner +:+ "/" +:+ repo +:+ "/"
          +:+ kind +:+ "/" +:+ number +:+ rest
    /\ host <> EmptyString /\ string_forall host_char host = true
    /\ owner <> EmptyString /\ string_forall non_space owner = true
    /\ repo <> EmptyString /\ string_forall non_space repo = true
    /\ (kind = "issues" \/ kind = "pull" \/ kind = EmptyString)
    /\ number <> EmptyString /\ string_forall is_digit number = true.

(** ** What a constructed pull request holds *)

(** The attribute a nested user ends up in: a [User] when the payload has
    one, the (falsy) value of the payload otherwise. *)
Definition user_attr (j : Json) : Value :=
  if truthy j then VUser (User.__init__ j) else VJson j.

Definition groups_value (g : list string) : Value :=
  VTuple ((fun s => VJson (JStr s)) <$> g).

(** The attributes of a pull request built from [d]: what a run of
    [PullRequest.__init__] that returns has assigned, latest assignment
    outermost. *)
Definition snapshot (d : dict) (session : Value) (base head : PullDestination.t)
    (api : string) (repository : Value) : gmap string Value :=
  <["assignee" := user_attr (get d "assignee")]> $
  <["user" := user_attr (get d "user")]> $
  <["updated_at" := _strptime (get d "updated_at")]> $
  <["title" := VJson (get d "title")]> $
  <["state" := VJson (get d "state")]> $
  <["repository" := repository]> $
  <["review_comments_url" := VJson (get d "review_comments_url")]> $
  <["review_comments" := VJson (get d "review_comments")]> $
  <["review_comment_url" :=
      if truthy (get d "review_comment_url")
      then VTemplate (get d "review_comment_url") else VNone]> $
  <["patch_url" := VJson (get d "patch_url")]> $
  <["number" := VJson (get d "number")]> $
  <["merged_by" :=
      if truthy (get d "merged_by")
      then VUser (User.__init__ (get d "merged_by")) else VNone]> $
  <["merge_commit_sha" := VJson (get_default d "merge_commit_sha" (JStr EmptyString))]> $
  <["mergeable_state" := VJson (get_default d "mergeable_state" (JStr EmptyString))]> $
  <["mergeable" := VJson (get_default d "mergeable" (JBool false))]> $
  <["merged_at" := _strptime (get d "merged_at")]> $
  <["links" :=
      VDict [("self", VJson (JStr api));
             ("comments",
              VJson (JStr (join_slash (replace api "pulls" "issues") "comments")));
             ("issue", VJson (JStr (replace api "pulls" "issues")));
             ("html", VJson (get d "html_url"));
             ("review_comments", VJson (JStr (api +:+ "/comments")))]]> $
  <["statuses_url" := VJson (get d "statuses_url")]> $
  <["issue_url" := VJson (get d "issue_url")]> $
  <["labels_urlt" :=
      if truthy (get d "labels_url")
      then VTemplate (get d "labels_url") else VNone]> $
  <["labels" := VList []]> $
  <["id" := VJson (get d "id")]> $
  <["html_url" := VJson (get d "html_url")]> $
  <["head" := VDest head]> $
  <["diff_url" := VJson (get d "diff_url")]> $
  <["created_at" := _strptime (get d "created_at")]> $
  <["commits_url" := VJson (get d "commits_url")]> $
  <["commits" := VJson (get d "commits")]> $
  <["comments_url" := VJson (get d "comments_url")]> $
  <["comments" := VJson (get d "comments")]> $
  <["closed_at" := _strptime (get d "closed_at")]> $
  <["deletions" := VJson (get d "deletions")]> $
  <["additions" := VJson (get d "additions")]> $
  <["body_text" := VJson (get_default d "body_text" (JStr EmptyString))]> $
  <["body_html" := VJson (get_default d "body_html" (JStr EmptyString))]> $
  <["body" := VJson (get_default d "body" (JStr EmptyString))]> $
  <["base" := VDest base]> $
  <["_api" := VJson (JStr api)]> $
  <["_session" := match session with VNone => VSession anonymous | s => s end]> ∅.

(** The steps of the constructor that can raise, in the order it takes them,
    and the object when none does. *)
Definition construct (d : dict) (session : Value) : Res (gmap string Value) :=
  base ← PullDestination.__init__ (get d "base") "Base";
  head ← PullDestination.__init__ (get d "head") "Head";
  elems ← py_iter (get d "labels");
  _ ← PullRequest.label_objects elems;
  api ← str_receiver (VJson (get_default d "url" (JStr EmptyString)));
  issue_url ← str_argument (VJson (get d "issue_url"));
  repository ← PullRequest.groups (re_match issue_url_pattern issue_url);
  mret (snapshot d session base head api repository).

(** What the constructor needs of a payload. *)
Record accepted (d : dict) (base head : PullDestination.t) (api : string)
    (g : list string) : Prop := {
  acc_base : PullDestination.__init__ (get d "base") "Base" = Ok base;
  acc_head : PullDestination.__init__ (get d "head") "Head" = Ok head;
  acc_labels : py_iter (get d "labels") = Ok [];
  acc_url : get_default d "url" (JStr EmptyString) = JStr api;
  acc_issue_url :
    exists u, get d "issue_url" = JStr u /\ re_match issue_url_pattern u = Some g
}.

(** The names of the attributes the constructor assigns. *)
Definition pull_request_attributes : gset string :=
  list_to_set
    ["_session"; "_api"; "base"; "body"; "body_html"; "body_text"; "additions";
     "deletions"; "closed_at"; "comments"; "comments_url"; "commits";
     "commits_url"; "created_at"; "diff_url"; "head"; "html_url"; "id";
     "labels"; "labels_urlt"; "issue_url"; "statuses_url"; "links";
     "merged_at"; "mergeable"; "mergeable_state"; "merge_commit_sha";
     "merged_by"; "number"; "patch_url"; "review_comment_url";
     "review_comments"; "review_comments_url"; "repository"; "state"; "title";
     "updated_at"; "user"; "assignee"].

(** ** What [update] submits *)

Definition is_null (j : Json) : bool :=
  match j with JNull => true | _ => false end.

(** The JSON object [update(title, body, state)] serialises: the arguments
    that are not [None], under their names, in the order of the source. *)
Definition update_payload (title body state : Json) : dict :=
  filter (fun kv => negb (is_null kv.2))
         [("title", title); ("body", body); ("state", state)].

Definition patch_request (api : Value) (payload : dict) : Request :=
  {| verb := PATCH; url := api; data := Some (JObj payload) |}.

Definition log (rq : Request) (st : State) : State :=
  {| attrs := attrs st; sent := sent st ++ [rq] |}.

(** ** States and servers used in the examples *)

Definition authed : Value := VSession {| authenticated := true |}.

(** The object [PullRequest(pull, session)] with nothing sent yet (a blank
    object if the constructor raises). *)
Definition state_of (pull : Json) (session : Value) : State :=
  {| attrs := match PullRequest.new pull session with
              | Ok o => o
              | Raise _ => ∅
              end;
     sent := [] |}.

Definition sample_state : State := state_of sample_pull authed.

Definition anonymous_state : State := state_of sample_pull VNone.

(** A server that answers every request the same way. *)
Definition answer (status : Z) (body : option Json) : Request -> Response :=
  fun _ => {| status_code := status; content := body |}.

Definition merge_answer : Json :=
  JObj [("sha", JStr "abc123"); ("merged", JBool false)].

Definition merge_request (api : string) (commit_message : Json) : Request :=
  {| verb := PUT;
     url := VJson (JStr (join_slash api "merge"));
     data := if truthy commit_message
             then Some (JObj [("commit_message", commit_message)])
             else None |}.

Definition merge_status_request (api : string) : Request :=
  {| verb := GET; url := VJson (JStr (join_slash api "merge")); data := None |}.

(** ** The links, and a repository called "pulls" *)

(** [self.links[k]] *)
Definition link (k : string) (o : gmap string Value) : option Value :=
  match o !! "links" with
  | Some (VDict l) => snd <$> find (fun kv => String.eqb kv.1 k) l
  | _ => None
  end.

(** [t] is [s] with [old] replaced by [new] in exactly one place. *)
Definition replaced_once (s old new t : string) : Prop :=
  exists pre post, s = pre +:+ old +:+ post /\ t = pre +:+ new +:+ post.

(** [old] occurs somewhere in [s]. *)
Fixpoint occurs (old s : string) : bool :=
  String.prefix old s
  || match s with
     | EmptyString => false
     | String _ s' => occurs old s'
     end.

(** [old] starts at one of the positions of [pre] in [pre +:+ rest]. *)
Fixpoint starts_within (old pre rest : string) : bool :=
  match pre with
  | EmptyString => false
  | String _ pre' => String.prefix old (pre +:+ rest) || starts_within old pre' rest
  end.

Definition pulls_repo_url : string :=
  "https://api.github.com/repos/octocat/pulls/pulls/7".

Definition pulls_repo_destination (label : string) : Json :=
  JObj [("label", JStr label); ("ref", JStr label); ("sha", JStr "6dcb09b5");
        ("user", octocat);
        ("repo", JObj [("name", JStr "pulls"); ("owner", octocat)])].

(** Pull request 7 of the repository [octocat/pulls]. *)
Definition pulls_repo_pull : Json :=
  JObj [("url", JStr pulls_repo_url);
        ("id", JNum 99);
        ("html_url", JStr "https://github.com/octocat/pulls/pull/7");
        ("issue_url", JStr "https://api.github.com/repos/octocat/pulls/issues/7");
        ("number", JNum 7);
        ("state", JStr "open");
        ("title", JStr "fix typo");
        ("labels", JList []);
        ("user", octocat);
        ("head", pulls_repo_destination "typo");
        ("base", pulls_repo_destination "master")].

(** ** Payloads with a key taken out *)

Definition dict_remove (k : string) (d : dict) : dict :=
  filter (fun kv => negb (String.eqb kv.1 k)) d.

Definition sample_comment : Json :=
  JObj [("id", JNum 10); ("path", JStr "file1.txt");
        ("original_position", JNum 4);
        ("commit_id", JStr "6dcb09b5"); ("original_commit_id", JStr "9c48853f");
        ("diff_hunk", JStr "@@ -16,33 +16,40 @@");
        ("user", octocat)].

(** ** Counting characters *)

(** How often [c] occurs in [s]. *)
Fixpoint count_char (c : ascii) (s : string) : nat :=
  match s with
  | EmptyString => 0
  | String a s' => (if Ascii.eqb a c then 1 else 0) + count_char c s'
  end.

(** The issue URL pattern from the slash after the first group on, and from
    the slash after the second group on. *)
Definition after_repo : regex :=
  Seq (Lit "/")
 (Seq (Opt (Alt (Lit "issues") (Lit "pull")))
 (Seq (Lit "/")
      (Plus is_digit))).

Definition after_owner : regex :=
  Seq (Lit "/") (Seq (Group (Plus non_space)) after_repo).

(** ** Keys of the payloads *)

(** The keys a [PullFile] is read from. *)
Definition pull_file_keys : list string :=
  ["sha"; "filename"; "status"; "additions"; "deletions"; "changes";
   "blob_url"; "raw_url"; "patch"].

Definition sample_file : Json :=
  JObj [("sha", JStr "bbcd538c"); ("filename", JStr "file1.txt");
        ("status", JStr "added"); ("additions", JNum 103);
        ("deletions", JNum 21); ("changes", JNum 124);
        ("patch", JStr "@@ -132,7 +132,7 @@")].

(** The keys the constructor reads with a default of its own, and the keys
    it copies as they are. *)
Definition defaulted_fields : list (string * Json) :=
  [("body", JStr EmptyString); ("body_html", JStr EmptyString); ("body_text", JStr EmptyString);
   ("mergeable", JBool false); ("mergeable_state", JStr EmptyString);
   ("merge_commit_sha", JStr EmptyString)].

Definition plain_fields : list string :=
  ["additions"; "deletions"; "comments"; "comments_url"; "commits";
   "commits_url"; "diff_url"; "html_url"; "id"; "issue_url"; "statuses_url";
   "number"; "patch_url"; "review_comments"; "review_comments_url"; "state";
   "title"].

(** The keys of the payload the constructor reads. *)
Definition constructor_keys : list string :=
  ["url"; "base"; "body"; "body_html"; "body_text"; "additions"; "deletions";
   "closed_at"; "comments"; "comments_url"; "commits"; "commits_url";
   "created_at"; "diff_url"; "head"; "html_url"; "id"; "labels"; "labels_url";
   "issue_url"; "statuses_url"; "merged_at"; "mergeable"; "mergeable_state";
   "merge_commit_sha"; "merged_by"; "number"; "patch_url"; "review_comment_url";
   "review_comments"; "review_comments_url"; "state"; "title"; "updated_at";
   "user"; "assignee"].

(** The keys of [self.links]. *)
Definition link_names : list string :=
  ["self"; "comments"; "issue"; "html"; "review_comments"].

(** ** A constructor that stops half way *)

(** The attributes assigned before the labels are looked at (lines 100 to
    134), latest assignment outermost. *)
Definition before_labels (d : dict) (session : Value) (base head : PullDestination.t)
    : gmap string Value :=
  <["id" := VJson (get d "id")]> $
  <["html_url" := VJson (get d "html_url")]> $
  <["head" := VDest head]> $
  <["diff_url" := VJson (get d "diff_url")]> $
  <["created_at" := _strptime (get d "created_at")]> $
  <["commits_url" := VJson (get d "commits_url")]> $
  <["commits" := VJson (get d "commits")]> $
  <["comments_url" := VJson (get d "comments_url")]> $
  <["comments" := VJson (get d "comments")]> $
  <["closed_at" := _strptime (get d "closed_at")]> $
  <["deletions" := VJson (get d "deletions")]> $
  <["additions" := VJson (get d "additions")]> $
  <["body_text" := VJson (get_default d "body_text" (JStr EmptyString))]> $
  <["body_html" := VJson (get_default d "body_html" (JStr EmptyString))]> $
  <["body" := VJson (get_default d "body" (JStr EmptyString))]> $
  <["base" := VDest base]> $
  <["_api" := VJson (get_default d "url" (JStr EmptyString))]> $
  <["_session" := match session with VNone => VSession anonymous | s => s end]> ∅.

(** The sample payload as a server would send it back after a change of
    title and body, with a label on it. *)
Definition labelled_pull : Json :=
  JObj (("labels", JList [JObj [("name", JStr "bug")]])
        :: ("title", JStr "renamed") :: ("body", JStr "new text") :: sample_fields).

(** ** The request of [diff] and [patch] *)

Definition download_request (api : Value) : Request :=
  {| verb := GET; url := api; data := None |}.

(** A server that looks at the [Accept] header only. *)
Definition by_accept (headers : list (string * string)) : Request -> Response :=
  fun _ =>
    match headers with
    | [("Accept", "application/vnd.github.diff")] =>
        {| status_code := 200; content := Some (JStr "diff --git a/f b/f") |}
    | [("Accept", "application/vnd.github.patch")] =>
        {| status_code := 404; content := None |}
    | _ => {| status_code := 500; content := None |}
    end.


(** * Examples *)

Example re_match_html :
  re_match issue_url_pattern "https://github.com/octocat/hello/issues/12"
  = Some ["octocat"; "hello"].
Proof. reflexivity. Qed.

Example re_match_api :
  re_match issue_url_pattern "https://api.github.com/repos/octocat/hello/issues/12"
  = Some ["repos/octocat"; "hello"].
Proof. reflexivity. Qed.

Example re_match_http :
  re_match issue_url_pattern "http://github.com/octocat/hello/issues/12" = None.
Proof. reflexivity. Qed.

Example replace_one :
  replace "https://api.github.com/repos/octocat/hello/pulls/12" "pulls" "issues"
  = "https://api.github.com/repos/octocat/hello/issues/12".
Proof. reflexivity. Qed.


(** Outside ASCII the classes are the Unicode ones: a host with U+00EF is a
    host, U+00AF (a modifier symbol) is not a word character, and a group
    stops at the separator U+001F and at the no-break space U+00A0, which
    are white space. *)
Example re_match_latin1_host :
  re_match issue_url_pattern
    ("https://g" +:+ String "239" "thub.com/octocat/hello/issues/12")
  = Some ["octocat"; "hello"].
Proof. reflexivity. Qed.

Example re_match_host_with_macron :
  re_match issue_url_pattern ("https://h" +:+ String "175" "/a/b/issues/5") = None.
Proof. reflexivity. Qed.

Example re_match_stops_at_separator :
  re_match issue_url_pattern
    ("https://host/x/y/issues/3" +:+ String "031" "q/name/issues/5")
  = Some ["x"; "y"].
Proof. reflexivity. Qed.

Example re_match_no_break_space :
  re_match issue_url_pattern ("https://host/a" +:+ String "160" "b/c/issues/5") = None.
Proof. reflexivity. Qed.

(** * Regular expressions: the search finds what the pattern means *)

Lemma app_cons a (p s : string) : String a p +:+ s = String a (p +:+ s).
Proof. reflexivity. Qed.

Lemma app_nil (s : string) : EmptyString +:+ s = s.
Proof. reflexivity. Qed.

Lemma strip_prefix_app t rest : strip_prefix t (t +:+ rest) = Some rest.
Proof.
  induction t as [|a t IH]; rewrite ?app_nil, ?app_cons; simpl; [done|].
  by rewrite Ascii.eqb_refl.
Qed.

Lemma strip_prefix_Some t s rest : strip_prefix t s = Some rest -> s = t +:+ rest.
Proof.
  revert s; induction t as [|a t IH]; intros s; simpl.
  - by intros [= ->].
  - destruct s as [|b s]; [done|].
    destruct (Ascii.eqb a b) eqn:E; [|done].
    apply Ascii.eqb_eq in E as ->. intros ->%IH. by rewrite app_cons.
Qed.

Lemma string_app_length (p s : string) :
  String.length (p +:+ s) = String.length p + String.length s.
Proof. induction p; rewrite ?app_nil, ?app_cons; simpl; congruence. Qed.

Lemma substring_prefix (p s : string) : substring 0 (String.length p) (p +:+ s) = p.
Proof.
  induction p as [|a p IH]; rewrite ?app_nil, ?app_cons; simpl; [by destruct s|].
  by rewrite IH.
Qed.

Lemma consumed_app p rest : consumed (p +:+ rest) rest = p.
Proof.
  unfold consumed. rewrite string_app_length.
  replace (String.length p + String.length rest - String.length rest)
    with (String.length p) by lia.
  apply substring_prefix.
Qed.

Lemma plus_greedy_sound {R} cls s (k : string -> option R) g :
  plus_greedy cls s k = Some g ->
  exists p rest, s = p +:+ rest /\ p <> EmptyString /\
                 string_forall cls p = true /\ k rest = Some g.
Proof.
  revert g; induction s as [|c s IH]; intros g; simpl; [done|].
  destruct (cls c) eqn:Hc; [|done].
  destruct (plus_greedy cls s k) as [g'|] eqn:Hs.
  - intros [= ->]. destruct (IH g eq_refl) as (p & rest & -> & _ & Hp & Hk).
    exists (String c p), rest. simpl. by rewrite Hc, Hp.
  - intros Hk. exists (String c EmptyString), s. simpl. by rewrite Hc.
Qed.

Lemma plus_greedy_complete {R} cls p rest (k : string -> option R) :
  p <> EmptyString -> string_forall cls p = true -> is_Some (k rest) ->
  is_Some (plus_greedy cls (p +:+ rest) k).
Proof.
  intros Hne Hp Hk. induction p as [|c p IH]; [done|].
  rewrite app_cons. simpl in *. apply andb_true_iff in Hp as [-> Hp].
  destruct p as [|c' p].
  - rewrite app_nil. by destruct (plus_greedy cls rest k).
  - destruct (IH ltac:(done) Hp) as [g ->]. eauto.
Qed.

(** A match the search returns is a match of the pattern. *)
Lemma rmatch_sound r s caps k g :
  rmatch r s caps k = Some g ->
  exists rest caps', matches r s rest caps caps' /\ k rest caps' = Some g.
Proof.
  revert s caps k g.
  induction r as [t|cls|r IH|r1 IH1 r2 IH2|r1 IH1 r2 IH2|r IH];
    intros s caps k g; simpl.
  - destruct (strip_prefix t s) as [rest|] eqn:E; [|done].
    apply strip_prefix_Some in E as ->. intros Hk.
    eauto using matches.
  - intros (p & rest & -> & Hne & Hp & Hk)%plus_greedy_sound.
    eauto using matches.
  - intros (rest & caps' & Hm & Hk)%IH. eauto using matches.
  - intros (mid & caps1 & Hm1 & (rest & caps2 & Hm2 & Hk)%IH2)%IH1.
    eauto using matches.
  - destruct (rmatch r1 s caps k) as [g'|] eqn:E.
    + intros [= ->]. apply IH1 in E as (rest & caps' & Hm & Hk). eauto using matches.
    + intros (rest & caps' & Hm & Hk)%IH2. eauto using matches.
  - destruct (rmatch r s caps k) as [g'|] eqn:E.
    + intros [= ->]. apply IH in E as (rest & caps' & Hm & Hk). eauto using matches.
    + intros Hk. eauto using matches.
Qed.

(** Whatever the pattern matches, the search finds a match (the first one in
    its order, which need not be the same). *)
Lemma rmatch_complete r s rest caps caps' k :
  matches r s rest caps caps' -> is_Some (k rest caps') ->
  is_Some (rmatch r s caps k).
Proof.
  intros Hm. revert k.
  induction Hm as [t rest caps|cls p rest caps Hne Hp|r s rest caps caps' Hm IH
                  |r1 r2 s mid rest caps caps1 caps2 Hm1 IH1 Hm2 IH2
                  |r1 r2 s rest caps caps' Hm IH|r1 r2 s rest caps caps' Hm IH
                  |r s rest caps caps' Hm IH|r s caps];
    intros k Hk; simpl.
  - by rewrite strip_prefix_app.
  - by apply plus_greedy_complete.
  - by apply IH.
  - apply IH1. by apply IH2.
  - destruct (IH k Hk) as [g ->]. eauto.
  - destruct (rmatch r1 s caps k); eauto.
  - destruct (IH k Hk) as [g ->]. eauto.
  - destruct (rmatch r s caps k); eauto.
Qed.

Lemma re_match_sound r s g :
  re_match r s = Some g -> exists rest, matches r s rest [] g.
Proof.
  unfold re_match. intros (rest & caps' & Hm & [= <-])%rmatch_sound. eauto.
Qed.

Lemma re_match_complete r s rest g :
  matches r s rest [] g -> is_Some (re_match r s).
Proof. intros Hm. eapply rmatch_complete; eauto. Qed.

Ltac invert_matches :=
  repeat match goal with
    | H : matches (Seq _ _) _ _ _ _ |- _ => inversion H; clear H; subst
    | H : matches (Lit _) _ _ _ _ |- _ => inversion H; clear H; subst
    | H : matches (Plus _) _ _ _ _ |- _ => inversion H; clear H; subst
    | H : matches (Group _) _ _ _ _ |- _ => inversion H; clear H; subst
    | H : matches (Opt _) _ _ _ _ |- _ => inversion H; clear H; subst
    | H : matches (Alt _ _) _ _ _ _ |- _ => inversion H; clear H; subst
    end.

(** The pattern of the source means the URL shape. *)
Lemma issue_url_pattern_shape url rest g :
  matches issue_url_pattern url rest [] g ->
  exists owner repo, g = [owner; repo] /\ issue_url_shape url owner repo.
Proof.
  unfold issue_url_pattern. intros H. invert_matches.
  all: rewrite !consumed_app; eexists _, _; (split; [reflexivity|]).
  all: unfold issue_url_shape.
  1: eexists _, "issues", _, _.
  2: eexists _, "pull", _, _.
  3: eexists _, EmptyString, _, _.
  all: split; [reflexivity|]; naive_solver.
Qed.

Lemma issue_url_shape_pattern url owner repo :
  issue_url_shape url owner repo ->
  exists rest, matches issue_url_pattern url rest [] [owner; repo].
Proof.
  intros (host & kind & number & rest & -> & Hh1 & Hh2 & Ho1 & Ho2 & Hr1 & Hr2
          & Hk & Hn1 & Hn2).
  exists rest. unfold issue_url_pattern.
  eapply matches_Seq; [apply (matches_Lit "https://")|].
  eapply matches_Seq; [by apply matches_Plus|].
  eapply matches_Seq; [apply (matches_Lit "/")|].
  eapply matches_Seq.
  { pose proof (matches_Group (Plus non_space)
      (owner +:+ "/" +:+ repo +:+ "/" +:+ kind +:+ "/" +:+ number +:+ rest)
      _ [] [] (matches_Plus non_space owner _ [] Ho1 Ho2)) as Hm.
    rewrite consumed_app in Hm. exact Hm. }
  eapply matches_Seq; [apply (matches_Lit "/")|].
  eapply matches_Seq.
  { pose proof (matches_Group (Plus non_space)
      (repo +:+ "/" +:+ kind +:+ "/" +:+ number +:+ rest)
      _ [owner] [owner] (matches_Plus non_space repo _ _ Hr1 Hr2)) as Hm.
    rewrite consumed_app in Hm. exact Hm. }
  eapply matches_Seq; [apply (matches_Lit "/")|].
  eapply matches_Seq.
  { destruct Hk as [->|[->| ->]].
    - apply matches_Opt_some, matches_Alt_l, (matches_Lit "issues").
    - apply matches_Opt_some, matches_Alt_r, (matches_Lit "pull").
    - apply matches_Opt_none. }
  eapply matches_Seq; [apply (matches_Lit "/")|].
  by apply matches_Plus.
Qed.

(** [re.match] with the source's pattern succeeds exactly on the URLs of the
    shape, and the groups it returns are an owner and a repository the URL
    decomposes into. *)
Lemma re_match_issue_url_shape url g :
  re_match issue_url_pattern url = Some g ->
  exists owner repo, g = [owner; repo] /\ issue_url_shape url owner repo.
Proof. intros [rest Hm]%re_match_sound. by eapply issue_url_pattern_shape. Qed.

Lemma issue_url_shape_re_match url owner repo :
  issue_url_shape url owner repo -> is_Some (re_match issue_url_pattern url).
Proof.
  intros [rest Hm]%issue_url_shape_pattern. by eapply re_match_complete.
Qed.

(** * Running a method step by step *)

Section run.
Context {A B : Type}.
Implicit Types (f : A -> M B) (g : unit -> M B) (st : State).

Lemma run_setattr g k v st :
  (setattr k v ≫= g) st = g tt {| attrs := <[k:=v]> (attrs st); sent := sent st |}.
Proof. reflexivity. Qed.

Lemma run_getattr (h : Value -> M B) k st :
  (getattr k ≫= h) st =
  match attrs st !! k with
  | Some v => h v st
  | None => (Raise AttributeError, st)
  end.
Proof. unfold mbind, M_bind, getattr. by destruct (attrs st !! k). Qed.

Lemma run_lift f (r : Res A) st :
  (lift r ≫= f) st = match r with Ok a => f a st | Raise e => (Raise e, st) end.
Proof. unfold mbind, M_bind, lift. by destruct r. Qed.

Lemma run_when_true g m st : (when true m ≫= g) st = (m ≫= g) st.
Proof. reflexivity. Qed.

Lemma run_when_false g m st : (when false m ≫= g) st = g tt st.
Proof. reflexivity. Qed.
End run.

Lemma run_ret {A B} (f : A -> M B) a st : (mret a ≫= f) st = f a st.
Proof. reflexivity. Qed.

Lemma run_send {B} (f : Response -> M B) server v u d st :
  (GitHubCore.send server v u d ≫= f) st
  = f (server {| verb := v; url := u; data := d |})
      {| attrs := attrs st;
         sent := sent st ++ [{| verb := v; url := u; data := d |}] |}.
Proof. reflexivity. Qed.

Lemma run_assoc {A B C} (m : M A) (f : A -> M B) (g : B -> M C) st :
  ((m ≫= f) ≫= g) st = (m ≫= (fun a => f a ≫= g)) st.
Proof. unfold mbind, M_bind. by destruct (m st) as [[?|?] ?]. Qed.

Lemma run_lift_end {A} (r : Res A) st : lift r st = (r, st).
Proof. reflexivity. Qed.

Lemma run_setattr_end k v st :
  setattr k v st = (Ok tt, {| attrs := <[k:=v]> (attrs st); sent := sent st |}).
Proof. reflexivity. Qed.

Lemma run_when_true_end m st : when true m st = m st.
Proof. reflexivity. Qed.

Lemma run_when_false_end st m : when false m st = (Ok tt, st).
Proof. reflexivity. Qed.

#[global] Opaque setattr getattr lift when.

(** Reading back an attribute assigned earlier in the same run. *)
Ltac lookup_attr :=
  repeat (rewrite lookup_insert_ne by done); rewrite lookup_insert_eq.

(** A step that can raise, or a test: use what is known about it, or split. *)
Ltac run_case r :=
  first [ match goal with H : r = _ |- _ => rewrite H end
        | let r' := eval hnf in r in
          lazymatch r' with
          | Ok _ => change r with r'
          | Raise _ => change r with r'
          | true => change r with r'
          | false => change r with r'
          end
        | destruct r eqn:? ];
  cbv beta iota.

Ltac run_step :=
  lazymatch goal with
  | |- context [mbind ?g (mbind ?f ?m) ?st] =>
      rewrite (run_assoc m f g st)
  | |- context [mbind ?g (setattr ?k ?v) ?st] =>
      rewrite (run_setattr g k v st)
  | |- context [mbind ?g (getattr ?k) ?st] =>
      rewrite (run_getattr g k st); cbn [attrs sent]; lookup_attr
  | |- context [mbind ?f (lift ?r) ?st] =>
      rewrite (run_lift f r st);
      lazymatch r with
      | Ok _ => idtac
      | Raise _ => idtac
      | _ => run_case r
      end
  | |- context [mbind ?g (when true ?m) ?st] => rewrite (run_when_true g m st)
  | |- context [mbind ?g (when false ?m) ?st] => rewrite (run_when_false g m st)
  | |- context [mbind ?g (when ?b ?m) ?st] => run_case b
  | |- context [when true ?m ?st] => rewrite (run_when_true_end m st)
  | |- context [when false ?m ?st] => rewrite (run_when_false_end st m)
  | |- context [when ?b ?m ?st] => run_case b
  | |- context [setattr ?k ?v ?st] => rewrite (run_setattr_end k v st)
  end;
  cbn [attrs sent]; cbv beta iota.

Ltac run := repeat run_step.


(** * The constructor *)

Lemma Ok_inj {A} (a b : A) : Ok a = Ok b -> a = b.
Proof. congruence. Qed.

Lemma str_receiver_ok v s : str_receiver v = Ok s -> v = VJson (JStr s).
Proof. destruct v as [[]| | | | | | | |]; simpl; congruence. Qed.

Lemma str_argument_ok v s : str_argument v = Ok s -> v = VJson (JStr s).
Proof. destruct v as [[]| | | | | | | |]; simpl; congruence. Qed.

Lemma label_objects_ok l vs : PullRequest.label_objects l = Ok vs -> l = [] /\ vs = [].
Proof. destruct l; simpl; [intros [= <-]; done | discriminate]. Qed.

Lemma groups_ok m v :
  PullRequest.groups m = Ok v -> exists g, m = Some g /\ v = groups_value g.
Proof. destruct m; simpl; [intros [= <-]; eauto | discriminate]. Qed.

(** The constructor on an object with attributes already: it raises what
    [construct] raises, and when [construct] returns, its assignments lie
    over the previous attributes.  It sends nothing. *)
Lemma init_construct d session st :
  (PullRequest.__init__ (JObj d) session st).1 = construct d session ≫= (fun _ => Ok tt)
  /\ (forall o, construct d session = Ok o ->
        attrs (PullRequest.__init__ (JObj d) session st).2 = o ∪ attrs st)
  /\ sent (PullRequest.__init__ (JObj d) session st).2 = sent st.
Proof.
  destruct st as [a w].
  unfold PullRequest.__init__, GitHubCore.__init__, construct.
  cbv zeta. run.
  all: cbn [fst snd attrs sent mbind Res_bind mret Res_ret].
  all: repeat (match goal with
               | H : ?r = Ok _ |- context [mbind _ ?r] => rewrite H
               | H : ?r = Raise _ |- context [mbind _ ?r] => rewrite H
               end; cbn [mbind Res_bind mret Res_ret]).
  all: try (split; [reflexivity|split; [discriminate|reflexivity]]).
  all: split; [reflexivity|split; [|reflexivity]].
  all: intros o Ho%Ok_inj; subst o.
  all: repeat match goal with
       | H : str_receiver _ = Ok _ |- _ => apply str_receiver_ok in H; injection H as H
       | H : PullRequest.label_objects _ = Ok _ |- _ =>
           apply label_objects_ok in H; destruct H as [-> ->]
       end.
  all: unfold snapshot, user_attr.
  all: repeat match goal with H : truthy _ = _ |- _ => rewrite H; clear H end.
  all: repeat match goal with H : get_default _ _ _ = JStr _ |- _ => rewrite H end.
  all: cbv beta iota; rewrite ?insert_insert_eq, <- ?insert_union_l, (left_id_L ∅ (∪)).
  all: reflexivity.
Qed.

Lemma new_construct d session :
  PullRequest.new (JObj d) session = construct d session.
Proof.
  unfold PullRequest.new.
  destruct (init_construct d session {| attrs := ∅; sent := [] |}) as (H1 & H2 & _).
  destruct (PullRequest.__init__ _ _ _) as [[[]|e] st']; simpl in *;
    destruct (construct d session) as [o|e']; simpl in *; try congruence.
  rewrite (H2 o eq_refl). by rewrite (right_id_L ∅ (∪)).
Qed.

Lemma new_not_dict pull session :
  (forall d, pull <> JObj d) -> PullRequest.new pull session = Raise AttributeError.
Proof.
  intros Hd. unfold PullRequest.new, PullRequest.__init__, GitHubCore.__init__.
  destruct pull; try (by run); by destruct (Hd d).
Qed.

Lemma construct_ok_inv d session o :
  construct d session = Ok o ->
  exists base head api g,
    accepted d base head api g /\ o = snapshot d session base head api (groups_value g).
Proof.
  unfold construct.
  destruct (PullDestination.__init__ (get d "base") "Base") as [base|] eqn:Hb; [|done].
  destruct (PullDestination.__init__ (get d "head") "Head") as [head|] eqn:Hh; [|done].
  destruct (py_iter (get d "labels")) as [elems|] eqn:Hl; [|done].
  cbn [mbind Res_bind].
  destruct (PullRequest.label_objects elems) as [labels|] eqn:Hlo; [|done].
  apply label_objects_ok in Hlo as [-> ->].
  destruct (str_receiver _) as [api|] eqn:Hs; [|done].
  apply str_receiver_ok in Hs. injection Hs as Hs.
  destruct (str_argument _) as [u|] eqn:Hu; [|done].
  apply str_argument_ok in Hu. injection Hu as Hu.
  cbn [mbind Res_bind].
  destruct (PullRequest.groups _) as [v|] eqn:Hg; [|done].
  apply groups_ok in Hg as (g & Hg & ->).
  intros Ho%Ok_inj. subst o.
  exists base, head, api, g. split; [|done]. split; eauto.
Qed.

Lemma construct_ok d session base head api g :
  accepted d base head api g ->
  construct d session = Ok (snapshot d session base head api (groups_value g)).
Proof.
  intros [Hb Hh Hl Hurl (u & Hu & Hg)]. unfold construct.
  rewrite Hb, Hh, Hl, Hurl, Hu. cbn [mbind Res_bind PullRequest.label_objects
    str_receiver str_argument].
  by rewrite Hg.
Qed.

(** A constructor call that returns: the payload was a dict the constructor
    accepts and the object is the snapshot. *)
Lemma new_ok_inv pull session o :
  PullRequest.new pull session = Ok o ->
  exists d base head api g,
    pull = JObj d /\ accepted d base head api g /\
    o = snapshot d session base head api (groups_value g).
Proof.
  destruct pull as [| | | | |d];
    try (rewrite new_not_dict by done; discriminate).
  rewrite new_construct. intros (base & head & api & g & Ha & ->)%construct_ok_inv.
  by exists d, base, head, api, g.
Qed.

(** Conversely, an acceptable payload is always constructed. *)
Lemma new_ok d session base head api g :
  accepted d base head api g ->
  PullRequest.new (JObj d) session = Ok (snapshot d session base head api (groups_value g)).
Proof. rewrite new_construct. apply construct_ok. Qed.

(** Re-running the constructor on a live object with a payload it accepts:
    the attributes of the new object lie over the old ones. *)
Lemma init_ok pull session o st :
  PullRequest.new pull session = Ok o ->
  PullRequest.__init__ pull session st
  = (Ok tt, {| attrs := o ∪ attrs st; sent := sent st |}).
Proof.
  intros Hn. destruct (new_ok_inv _ _ _ Hn) as (d & _ & _ & _ & _ & -> & _).
  rewrite new_construct in Hn.
  destruct (init_construct d session st) as (H1 & H2 & H3).
  rewrite Hn in H1. specialize (H2 o Hn).
  destruct (PullRequest.__init__ _ _ _) as [r [a w]]; simpl in *. by subst.
Qed.

(** Whether the constructor raises, and what, does not depend on the object
    it is run on. *)
Lemma init_outcome pull session st :
  (PullRequest.__init__ pull session st).1
  = PullRequest.new pull session ≫= (fun _ => Ok tt).
Proof.
  destruct pull as [| | | | |d];
    try (rewrite new_not_dict by done;
         unfold PullRequest.__init__, GitHubCore.__init__; by run).
  rewrite new_construct. apply init_construct.
Qed.

Lemma init_sent pull session st :
  sent (PullRequest.__init__ pull session st).2 = sent st.
Proof.
  destruct pull as [| | | | |d]; try apply init_construct.
  all: unfold PullRequest.__init__, GitHubCore.__init__; by run.
Qed.

(** Every constructed pull request has the same attributes, so rebuilding
    one from another payload leaves nothing of the old one. *)
Lemma snapshot_dom d session base head api repository :
  dom (snapshot d session base head api repository) = pull_request_attributes.
Proof.
  unfold snapshot. rewrite !dom_insert_L, dom_empty_L.
  unfold pull_request_attributes. cbn [list_to_set foldr]. set_solver.
Qed.

Lemma new_dom pull session o :
  PullRequest.new pull session = Ok o -> dom o = pull_request_attributes.
Proof.
  intros (d & base & head & api & g & -> & _ & ->)%new_ok_inv. apply snapshot_dom.
Qed.

Lemma new_union pull session o pull' session' o' :
  PullRequest.new pull session = Ok o ->
  PullRequest.new pull' session' = Ok o' ->
  o ∪ o' = o.
Proof.
  intros Ho%new_dom Ho'%new_dom. apply map_eq. intros k.
  rewrite lookup_union. destruct (o !! k) as [v|] eqn:Hk.
  - by destruct (o' !! k).
  - apply not_elem_of_dom in Hk. rewrite Ho, <- Ho' in Hk.
    apply not_elem_of_dom in Hk. by rewrite Hk.
Qed.

(** * The methods *)

Lemma remove_none_payload (a b c : Json) :
  dumps (GitHubCore._remove_none
           [("title", VJson a); ("body", VJson b); ("state", VJson c)])
  = Ok (JObj (update_payload a b c))
  /\ truthy_value (VDict (GitHubCore._remove_none
           [("title", VJson a); ("body", VJson b); ("state", VJson c)]))
     = truthy (JObj (update_payload a b c)).
Proof. destruct a, b, c; split; reflexivity. Qed.

Lemma bind_init {B} pull session (b : B) st :
  (PullRequest.__init__ pull session ≫= (fun _ => mret b)) st
  = match PullRequest.__init__ pull session st with
    | (Ok _, st') => (Ok b, st')
    | (Raise e, st') => (Raise e, st')
    end.
Proof. reflexivity. Qed.

(** [update], unfolded: what it returns and the state it leaves, case by
    case. *)
Lemma update_eq server (title body state : Json) st :
  PullRequest.update server (VJson title) (VJson body) (VJson state) st
  = if is_authenticated st then
      match update_payload title body state with
      | [] => (Ok false, st)
      | payload =>
          match attrs st !! "_api" with
          | None => (Raise AttributeError, st)
          | Some api =>
              let st1 := log (patch_request api payload) st in
              match GitHubCore._json (server (patch_request api payload)) 200 with
              | Raise e => (Raise e, st1)
              | Ok json =>
                  if truthy json then
                    match attrs st !! "_session" with
                    | None => (Raise AttributeError, st1)
                    | Some session =>
                        match PullRequest.__init__ json session st1 with
                        | (Ok _, st2) => (Ok true, st2)
                        | (Raise e, st2) => (Raise e, st2)
                        end
                    end
                  else (Ok false, st1)
              end
          end
      end
    else (Raise AuthorizationError, st).
Proof.
  unfold PullRequest.update, requires_auth.
  destruct (is_authenticated st); [|reflexivity]. cbv zeta.
  destruct (remove_none_payload title body state) as [Hd Ht].
  rewrite Ht.
  destruct (update_payload title body state) as [|kv payload] eqn:Hp; [reflexivity|].
  cbn [truthy].
  rewrite !run_assoc, run_getattr.
  destruct (attrs st !! "_api") as [api|]; [|reflexivity].
  rewrite run_assoc, run_lift, Hd.
  unfold GitHubCore._patch. rewrite run_assoc, run_send, run_lift.
  fold (patch_request api (kv :: payload)). fold (log (patch_request api (kv :: payload)) st).
  cbv zeta.
  destruct (GitHubCore._json _ 200) as [json|e]; [|reflexivity].
  destruct (truthy json); [|reflexivity].
  unfold PullRequest._update_. rewrite run_assoc, run_getattr. cbn [log attrs].
  destruct (attrs st !! "_session") as [session|]; [|reflexivity].
  apply bind_init.
Qed.

(** * update, close, reopen, merge: authentication and the no-op *)

Lemma is_authenticated_log rq st : is_authenticated (log rq st) = is_authenticated st.
Proof. reflexivity. Qed.

(** C3.  [update()] with all three arguments [None] sends nothing and leaves
    the object as it is, whoever calls; for an authenticated caller it
    returns [False]. *)
Theorem update_without_fields_is_noop server st :
  (PullRequest.update server VNone VNone VNone st).2 = st
  /\ sent (PullRequest.update server VNone VNone VNone st).2 = sent st
  /\ (is_authenticated st = true ->
      PullRequest.update server VNone VNone VNone st = (Ok false, st)).
Proof.
  rewrite update_eq. change (update_payload JNull JNull JNull) with (@nil (string * Json)).
  by destruct (is_authenticated st).
Qed.

Lemma update_without_fields_is_noop_witness :
  PullRequest.update (answer 200 (Some sample_pull)) VNone VNone VNone sample_state
  = (Ok false, sample_state).
Proof.
  apply (update_without_fields_is_noop (answer 200 (Some sample_pull)) sample_state).
  vm_compute. reflexivity.
Defined.

Lemma update_payload_state (t b : Json) (s : string) :
  update_payload t b (JStr s) <> []
  /\ dict_lookup "state" (update_payload t b (JStr s)) = Some (JStr s).
Proof. destruct t, b; split; (discriminate || reflexivity). Qed.

(** What an authenticated [update] with something to submit sends: one
    PATCH to the API URL, whatever the server answers. *)
Lemma update_sent server (t b s : Json) st api :
  is_authenticated st = true ->
  update_payload t b s <> [] ->
  attrs st !! "_api" = Some api ->
  sent (PullRequest.update server (VJson t) (VJson b) (VJson s) st).2
  = sent st ++ [patch_request api (update_payload t b s)].
Proof.
  intros Ha Hp Hapi. rewrite update_eq, Ha, Hapi.
  destruct (update_payload t b s) as [|kv p]; [done|]. cbv zeta.
  destruct (GitHubCore._json _ 200) as [json|e]; [|done].
  destruct (truthy json); [|done].
  destruct (attrs st !! "_session") as [session|]; [|done].
  pose proof (init_sent json session (log (patch_request api (kv :: p)) st)) as Hs.
  destruct (PullRequest.__init__ _ _ _) as [[?|?] st2]; exact Hs.
Qed.

Lemma close_eq server st t b :
  is_authenticated st = true ->
  attrs st !! "title" = Some t -> attrs st !! "body" = Some b ->
  PullRequest.close server st = PullRequest.update server t b (VJson (JStr "closed")) st
  /\ PullRequest.reopen server st = PullRequest.update server t b (VJson (JStr "open")) st.
Proof.
  intros Ha Ht Hb. unfold PullRequest.close, PullRequest.reopen.
  unfold requires_auth. rewrite Ha.
  by rewrite !run_getattr, Ht, !run_getattr, Hb.
Qed.

(** C8.  Without an authenticated session [update], [close], [reopen] and
    [merge] raise the authorization error with the object and the log of
    requests untouched.  With one, [close] is [update(self.title, self.body,
    'closed')] and [reopen] is [update(self.title, self.body, 'open')]: one
    PATCH to the API URL whose payload binds [state] to ['closed'] (['open'])
    next to the current title and body. *)
Theorem mutations_require_authentication server st :
  (is_authenticated st = false ->
   forall title body state commit_message,
     PullRequest.update server title body state st = (Raise AuthorizationError, st)
     /\ PullRequest.close server st = (Raise AuthorizationError, st)
     /\ PullRequest.reopen server st = (Raise AuthorizationError, st)
     /\ PullRequest.merge server commit_message st = (Raise AuthorizationError, st))
  /\ (is_authenticated st = true ->
      forall t b api,
        attrs st !! "title" = Some (VJson t) ->
        attrs st !! "body" = Some (VJson b) ->
        attrs st !! "_api" = Some api ->
        PullRequest.close server st
        = PullRequest.update server (VJson t) (VJson b) (VJson (JStr "closed")) st
        /\ PullRequest.reopen server st
           = PullRequest.update server (VJson t) (VJson b) (VJson (JStr "open")) st
        /\ sent (PullRequest.close server st).2
           = sent st ++ [patch_request api (update_payload t b (JStr "closed"))]
        /\ sent (PullRequest.reopen server st).2
           = sent st ++ [patch_request api (update_payload t b (JStr "open"))]
        /\ (is_null t = false -> is_null b = false ->
            forall s, update_payload t b (JStr s)
                      = [("title", t); ("body", b); ("state", JStr s)])).
Proof.
  split.
  - intros Ha title body state commit_message.
    unfold PullRequest.update, PullRequest.close, PullRequest.reopen,
      PullRequest.merge, requires_auth.
    by rewrite Ha.
  - intros Ha t b api Ht Hb Hapi.
    destruct (close_eq server st _ _ Ha Ht Hb) as [-> ->].
    split; [done|]. split; [done|].
    rewrite !(update_sent _ _ _ _ _ api) by (done || apply update_payload_state).
    split; [done|]. split; [done|].
    intros Hnt Hnb s. by destruct t, b.
Qed.

Lemma mutations_require_authentication_witness :
  PullRequest.close (answer 200 (Some sample_pull)) anonymous_state
  = (Raise AuthorizationError, anonymous_state)
  /\ sent (PullRequest.close (answer 200 (Some sample_pull)) sample_state).2
     = [patch_request
          (VJson (JStr "https://api.github.com/repos/octocat/hello/pulls/12"))
          [("title", JStr "new-feature");
           ("body", JStr "Please pull these awesome changes");
           ("state", JStr "closed")]].
Proof.
  assert (is_authenticated anonymous_state = false) as Hanon
    by (vm_compute; reflexivity).
  assert (is_authenticated sample_state = true) as Hauth
    by (vm_compute; reflexivity).
  assert (attrs sample_state !! "title" = Some (VJson (JStr "new-feature"))) as Ht
    by (vm_compute; reflexivity).
  assert (attrs sample_state !! "body"
          = Some (VJson (JStr "Please pull these awesome changes"))) as Hb
    by (vm_compute; reflexivity).
  assert (attrs sample_state !! "_api"
          = Some (VJson (JStr "https://api.github.com/repos/octocat/hello/pulls/12")))
    as Hapi by (vm_compute; reflexivity).
  split.
  - destruct (mutations_require_authentication
                (answer 200 (Some sample_pull)) anonymous_state) as [H _].
    destruct (H Hanon VNone VNone VNone VNone) as (_ & Hc & _). exact Hc.
  - destruct (mutations_require_authentication
                (answer 200 (Some sample_pull)) sample_state) as [_ H].
    destruct (H Hauth _ _ _ Ht Hb Hapi) as (_ & _ & Hs & _). exact Hs.
Defined.

(** * update: what is submitted and what comes back *)

Lemma update_payload_lookup (title body state : Json) :
  dict_lookup "title" (update_payload title body state)
  = (if is_null title then None else Some title)
  /\ dict_lookup "body" (update_payload title body state)
     = (if is_null body then None else Some body)
  /\ dict_lookup "state" (update_payload title body state)
     = (if is_null state then None else Some state).
Proof. by destruct title, body, state. Qed.

Lemma update_payload_nil (title body state : Json) :
  update_payload title body state = []
  <-> is_null title && is_null body && is_null state = true.
Proof. by destruct title, body, state. Qed.

Lemma new_ok_truthy pull session o :
  PullRequest.new pull session = Ok o -> truthy pull = true.
Proof.
  intros (d & base & head & api & g & -> & [Hb _ _ _ _] & _)%new_ok_inv.
  by destruct d.
Qed.

Lemma json_200 rs body :
  rs = {| status_code := 200; content := Some body |} ->
  GitHubCore._json rs 200 = Ok body.
Proof. by intros ->. Qed.

(** C2 as stated fails: update with a field, for an authenticated
    caller, where the server answers 200 with a body, the sample pull
    request without its [base].  The PATCH is sent, and the call does not
    return [True]: the constructor cannot build the endpoint and [update]
    raises its [AttributeError]. *)
Lemma update_raises_on_answer_without_base :
  let answer_body := JObj (dict_remove "base" sample_fields) in
  let out := PullRequest.update (answer 200 (Some answer_body))
               (VJson (JStr "renamed")) VNone VNone sample_state in
  is_authenticated sample_state = true
  /\ truthy answer_body = true
  /\ out.1 = Raise AttributeError
  /\ sent out.2
     = [patch_request
          (VJson (JStr "https://api.github.com/repos/octocat/hello/pulls/12"))
          [("title", JStr "renamed")]].
Proof. vm_compute. repeat split; reflexivity. Qed.

(** C2, amended.  [update(title, body, state)]: an argument that is [None]
    is not in the submitted payload at all, the others are in it as given;
    the call sends at most one request, a PATCH to the API URL with that
    payload.  When the caller is authenticated, at least one field is
    supplied and the server answers 200 with a JSON object [d] the
    constructor can decode (both endpoints can be built, the URL is absent
    or a string, the issue URL has the shape of the pattern, and there are
    no labels to build), the call returns [True] and the object is rebuilt
    from [d]: every attribute the constructor assigns is the one decoded
    from [d] ([title] is [d]'s title, [state] its state, [body] its body or
    [''], the endpoints those built from [d], and so on through
    [snapshot]), and an object that came from the constructor keeps nothing
    else.  When the answer is a non-empty object whose [base] or [head]
    cannot be built, [update] raises the endpoint's exception after the
    PATCH.  The arguments are JSON values, [None] being null. *)
Theorem update_rebuilds_from_accepted_answer server (title body state : Json) st :
  let payload := update_payload title body state in
  let out := PullRequest.update server (VJson title) (VJson body) (VJson state) st in
  dict_lookup "title" payload = (if is_null title then None else Some title)
  /\ dict_lookup "body" payload = (if is_null body then None else Some body)
  /\ dict_lookup "state" payload = (if is_null state then None else Some state)
  /\ (sent out.2 = sent st
      \/ exists api, attrs st !! "_api" = Some api
                     /\ sent out.2 = sent st ++ [patch_request api payload])
  /\ (forall api session d base head api' g,
        is_authenticated st = true ->
        attrs st !! "_session" = Some session ->
        attrs st !! "_api" = Some api ->
        is_null title && is_null body && is_null state = false ->
        server (patch_request api payload)
        = {| status_code := 200; content := Some (JObj d) |} ->
        PullDestination.__init__ (get d "base") "Base" = Ok base ->
        PullDestination.__init__ (get d "head") "Head" = Ok head ->
        py_iter (get d "labels") = Ok [] ->
        get_default d "url" (JStr EmptyString) = JStr api' ->
        (exists u, get d "issue_url" = JStr u
                   /\ re_match issue_url_pattern u = Some g) ->
        let o := snapshot d session base head api' (groups_value g) in
        out = (Ok true,
               {| attrs := o ∪ attrs st;
                  sent := sent st ++ [patch_request api payload] |})
        /\ (forall k, k ∈ pull_request_attributes -> attrs out.2 !! k = o !! k)
        /\ attrs out.2 !! "title" = Some (VJson (get d "title"))
        /\ attrs out.2 !! "state" = Some (VJson (get d "state"))
        /\ attrs out.2 !! "body"
           = Some (VJson (get_default d "body" (JStr EmptyString)))
        /\ attrs out.2 !! "number" = Some (VJson (get d "number"))
        /\ attrs out.2 !! "_api" = Some (VJson (JStr api'))
        /\ attrs out.2 !! "base" = Some (VDest base)
        /\ attrs out.2 !! "head" = Some (VDest head)
        /\ attrs out.2 !! "repository" = Some (groups_value g)
        /\ (forall pull0 session0,
              PullRequest.new pull0 session0 = Ok (attrs st) -> attrs out.2 = o))
  /\ (forall api session d e,
        is_authenticated st = true ->
        attrs st !! "_session" = Some session ->
        attrs st !! "_api" = Some api ->
        is_null title && is_null body && is_null state = false ->
        server (patch_request api payload)
        = {| status_code := 200; content := Some (JObj d) |} ->
        d <> [] ->
        PullDestination.__init__ (get d "base") "Base" = Raise e
        \/ (is_ok (PullDestination.__init__ (get d "base") "Base") = true
            /\ PullDestination.__init__ (get d "head") "Head" = Raise e) ->
        out.1 = Raise e
        /\ sent out.2 = sent st ++ [patch_request api payload]).
Proof.
  intros payload out.
  destruct (update_payload_lookup title body state) as (Ht & Hb & Hs).
  do 3 (split; [done|]). split.
  - subst out. destruct (is_authenticated st) eqn:Ha;
      [|rewrite update_eq, Ha; by left].
    destruct (decide (payload = [])) as [Hp|Hp].
    { rewrite update_eq, Ha. fold payload. rewrite Hp. by left. }
    destruct (attrs st !! "_api") as [api|] eqn:Hapi.
    + right. exists api. split; [done|]. by apply update_sent.
    + left. rewrite update_eq, Ha, Hapi. fold payload. by destruct payload.
  - split.
    + intros api session d base head api' g Ha Hse Hapi Hsup Hrs Hbase Hhead Hl Hu Hi o.
      assert (PullRequest.new (JObj d) session = Ok o) as Hnew.
      { apply new_ok. by split. }
      assert (out = (Ok true,
               {| attrs := o ∪ attrs st;
                  sent := sent st ++ [patch_request api payload] |})) as ->.
      { subst out. rewrite update_eq, Ha, Hapi, Hse. fold payload.
        destruct payload as [|kv p] eqn:Hp.
        { apply update_payload_nil in Hp. congruence. }
        cbv zeta. rewrite (json_200 _ _ Hrs), (new_ok_truthy _ _ _ Hnew).
        by rewrite (init_ok _ _ _ _ Hnew). }
      cbn [snd attrs]. split; [done|].
      assert (forall k, k ∈ pull_request_attributes ->
                (o ∪ attrs st) !! k = o !! k) as Hall.
      { intros k Hk. rewrite <- (snapshot_dom d session base head api' (groups_value g)) in Hk.
        apply elem_of_dom in Hk as [v Hv]. fold o in Hv.
        rewrite Hv. by apply lookup_union_Some_l. }
      split; [exact Hall|].
      repeat (split; [apply lookup_union_Some_l; subst o; unfold snapshot; by lookup_attr|]).
      intros pull0 session0 H0. by apply (new_union _ _ _ _ _ _ Hnew H0).
    + intros api session d e Ha Hse Hapi Hsup Hrs Hd He.
      assert (PullRequest.new (JObj d) session = Raise e) as Hnew.
      { rewrite new_construct. unfold construct.
        destruct He as [->|[Hok ->]]; [done|].
        by destruct (PullDestination.__init__ (get d "base") "Base"). }
      assert (truthy (JObj d) = true) as Htr by (by destruct d).
      split.
      * subst out. rewrite update_eq, Ha, Hapi, Hse. fold payload.
        destruct payload as [|kv p] eqn:Hp.
        { apply update_payload_nil in Hp. congruence. }
        cbv zeta. rewrite (json_200 _ _ Hrs), Htr.
        pose proof (init_outcome (JObj d) session
                      (log (patch_request api (kv :: p)) st)) as Hi.
        rewrite Hnew in Hi.
        destruct (PullRequest.__init__ _ _ _) as [[?|?] ?]; simpl in *; congruence.
      * subst out. apply update_sent; [done| |done].
        intros Hp. apply update_payload_nil in Hp. congruence.
Qed.

Lemma update_rebuilds_from_accepted_answer_witness :
  let out := PullRequest.update
               (answer 200 (Some (JObj (("title", JStr "renamed") :: sample_fields))))
               (VJson (JStr "renamed")) VNone VNone sample_state in
  out.1 = Ok true
  /\ attrs out.2 !! "title" = Some (VJson (JStr "renamed"))
  /\ attrs out.2 !! "state" = Some (VJson (JStr "open")).
Proof.
  assert (is_authenticated sample_state = true) as Hauth
    by (vm_compute; reflexivity).
  assert (attrs sample_state !! "_session" = Some authed) as Hse
    by (vm_compute; reflexivity).
  assert (attrs sample_state !! "_api"
          = Some (VJson (JStr "https://api.github.com/repos/octocat/hello/pulls/12")))
    as Hapi by (vm_compute; reflexivity).
  destruct (PullDestination.__init__ (sample_destination "master" "master") "Base")
    as [base|] eqn:Hb; [|discriminate Hb].
  destruct (PullDestination.__init__ (sample_destination "new-topic" "new-topic") "Head")
    as [head|] eqn:Hh; [|discriminate Hh].
  destruct (update_rebuilds_from_accepted_answer
              (answer 200 (Some (JObj (("title", JStr "renamed") :: sample_fields))))
              (JStr "renamed") JNull JNull sample_state) as (_ & _ & _ & _ & H & _).
  destruct (H _ _ (("title", JStr "renamed") :: sample_fields) base head
              "https://api.github.com/repos/octocat/hello/pulls/12"
              ["repos/octocat"; "hello"]
              Hauth Hse Hapi eq_refl eq_refl Hb Hh eq_refl eq_refl
              ltac:(eexists; split; reflexivity))
    as (Hout & _ & Ht & Hs & _).
  cbv zeta. split; [by rewrite Hout|]. split; [exact Ht|exact Hs].
Defined.

(** * merge *)

(** C4.  [merge] on a 200 answer whose body has [sha] and [merged]: the
    attribute [merge_commit_sha] becomes the body's [sha], the call returns
    the body's [merged], and every other attribute is as before. *)
Theorem merge_stores_sha_and_returns_flag server (commit_message : Json) st api
    (body : dict) (sha merged : Json) :
  is_authenticated st = true ->
  attrs st !! "_api" = Some (VJson (JStr api)) ->
  server (merge_request api commit_message)
  = {| status_code := 200; content := Some (JObj body) |} ->
  dict_lookup "sha" body = Some sha ->
  dict_lookup "merged" body = Some merged ->
  let out := PullRequest.merge server (VJson commit_message) st in
  out = (Ok merged,
         {| attrs := <["merge_commit_sha" := VJson sha]> (attrs st);
            sent := sent st ++ [merge_request api commit_message] |})
  /\ attrs out.2 !! "merge_commit_sha" = Some (VJson sha)
  /\ (forall k, k <> "merge_commit_sha" -> attrs out.2 !! k = attrs st !! k).
Proof.
  intros Ha Hapi Hrs Hsha Hm out.
  assert (out = (Ok merged,
         {| attrs := <["merge_commit_sha" := VJson sha]> (attrs st);
            sent := sent st ++ [merge_request api commit_message] |})) as ->.
  { subst out. unfold PullRequest.merge, requires_auth. rewrite Ha. cbv zeta.
    unfold merge_request in *. cbn [truthy_value].
    destruct (truthy commit_message).
    - rewrite run_assoc, run_lift. cbn [dumps to_json fmap Res_fmap mbind Res_bind mret Res_ret].
      rewrite run_ret, run_getattr, Hapi, run_lift. cbn [GitHubCore._build_url].
      unfold GitHubCore._put. rewrite run_send, Hrs, run_lift.
      cbn -[setattr lift]. rewrite Hsha, Hm, run_lift, run_setattr.
      by rewrite run_lift_end.
    - rewrite run_ret, run_getattr, Hapi, run_lift. cbn [GitHubCore._build_url].
      unfold GitHubCore._put. rewrite run_send, Hrs, run_lift.
      cbn -[setattr lift]. rewrite Hsha, Hm, run_lift, run_setattr.
      by rewrite run_lift_end. }
  cbn [snd attrs]. split; [done|]. split.
  - apply lookup_insert_eq.
  - intros k Hk. by rewrite lookup_insert_ne.
Qed.

Lemma merge_stores_sha_and_returns_flag_witness :
  let out := PullRequest.merge (answer 200 (Some merge_answer))
               (VJson (JStr "release")) sample_state in
  out.1 = Ok (JBool false)
  /\ attrs out.2 !! "merge_commit_sha" = Some (VJson (JStr "abc123"))
  /\ attrs out.2 !! "title" = attrs sample_state !! "title".
Proof.
  assert (is_authenticated sample_state = true) as Hauth
    by (vm_compute; reflexivity).
  assert (attrs sample_state !! "_api"
          = Some (VJson (JStr "https://api.github.com/repos/octocat/hello/pulls/12")))
    as Hapi by (vm_compute; reflexivity).
  destruct (merge_stores_sha_and_returns_flag (answer 200 (Some merge_answer))
              (JStr "release") sample_state _
              [("sha", JStr "abc123"); ("merged", JBool false)]
              (JStr "abc123") (JBool false) Hauth Hapi eq_refl eq_refl eq_refl)
    as (Hout & Hsha & Hother).
  cbv zeta. split; [by rewrite Hout|]. split; [exact Hsha|].
  apply Hother. discriminate.
Defined.

(** * is_merged *)

(** C5.  [is_merged] asks the [merge] sub-resource once: 204 gives [True],
    404 gives [False], any other status raises the transport error.  The
    attributes of the object are never changed. *)
Theorem is_merged_reads_the_status server st :
  attrs (PullRequest.is_merged server st).2 = attrs st
  /\ (forall api,
        attrs st !! "_api" = Some (VJson (JStr api)) ->
        let code := status_code (server (merge_status_request api)) in
        PullRequest.is_merged server st
        = (if (code =? 204)%Z then Ok true
           else if (code =? 404)%Z then Ok false
           else Raise (TransportError code),
           log (merge_status_request api) st)).
Proof.
  unfold PullRequest.is_merged. rewrite run_getattr. split.
  - destruct (attrs st !! "_api") as [v|]; [|done]. rewrite run_lift.
    destruct (GitHubCore._build_url "merge" v); [|done].
    unfold GitHubCore._get. rewrite run_send.
    by rewrite run_lift_end.
  - intros api ->. rewrite run_lift. cbn [GitHubCore._build_url].
    unfold GitHubCore._get. rewrite run_send.
    by rewrite run_lift_end.
Qed.

Lemma is_merged_reads_the_status_witness :
  (PullRequest.is_merged (answer 404 None) sample_state).1 = Ok false
  /\ (PullRequest.is_merged (answer 204 None) sample_state).1 = Ok true
  /\ (PullRequest.is_merged (answer 500 None) sample_state).1
     = Raise (TransportError 500)
  /\ attrs (PullRequest.is_merged (answer 500 None) sample_state).2
     = attrs sample_state.
Proof.
  assert (attrs sample_state !! "_api"
          = Some (VJson (JStr "https://api.github.com/repos/octocat/hello/pulls/12")))
    as Hapi by (vm_compute; reflexivity).
  split; [|split; [|split]].
  - destruct (is_merged_reads_the_status (answer 404 None) sample_state) as [_ H].
    by rewrite (H _ Hapi).
  - destruct (is_merged_reads_the_status (answer 204 None) sample_state) as [_ H].
    by rewrite (H _ Hapi).
  - destruct (is_merged_reads_the_status (answer 500 None) sample_state) as [_ H].
    by rewrite (H _ Hapi).
  - apply (is_merged_reads_the_status (answer 500 None) sample_state).
Defined.

(** * Attributes of a constructed pull request *)

Lemma get_cons_ne k k' v d : k <> k' -> get ((k', v) :: d) k = get d k.
Proof.
  intros Hk. unfold get, get_default. simpl.
  by destruct (String.eqb_spec k k').
Qed.

Lemma get_default_cons_ne k k' v d dflt :
  k <> k' -> get_default ((k', v) :: d) k dflt = get_default d k dflt.
Proof.
  intros Hk. unfold get_default. simpl. by destruct (String.eqb_spec k k').
Qed.

Lemma get_cons_eq k v d : get ((k, v) :: d) k = v.
Proof. unfold get, get_default. simpl. by rewrite String.eqb_refl. Qed.

(** [d.get(k)] is [None] exactly when [k] is absent or bound to null. *)
Lemma get_null d k :
  get d k = JNull <-> dict_lookup k d = None \/ dict_lookup k d = Some JNull.
Proof.
  unfold get, get_default. destruct (dict_lookup k d) as [v|].
  - split; [intros ->; by right | by intros [[=]|[= ->]]].
  - split; [by left | done].
Qed.

Lemma state_of_new pull session :
  is_ok (PullRequest.new pull session) = true ->
  PullRequest.new pull session = Ok (attrs (state_of pull session)).
Proof. unfold state_of. cbn [attrs]. by destruct (PullRequest.new pull session). Qed.

Lemma destination_ok_inv dest direction t :
  PullDestination.__init__ dest direction = Ok t ->
  exists d,
    dest = JObj d
    /\ PullDestination.direction t = direction
    /\ PullDestination.ref t = get d "ref"
    /\ PullDestination.label t = get d "label"
    /\ PullDestination.sha t = get d "sha"
    /\ PullDestination.user t
       = (if truthy (get d "user") then Some (User.__init__ (get d "user")) else None)
    /\ (truthy (get d "repo") = false ->
        PullDestination.repo t = (JStr EmptyString, JStr EmptyString)).
Proof.
  unfold PullDestination.__init__.
  destruct dest as [| | | | |d]; try discriminate.
  cbn [py_get mbind Res_bind]. intros H. exists d. split; [done|].
  destruct (truthy (get d "repo")).
  - destruct (py_get (get d "repo") "name") as [name|]; [|done].
    cbn [mbind Res_bind] in H.
    destruct (py_getitem (get d "repo") "owner") as [o|]; [|done].
    cbn [mbind Res_bind] in H.
    destruct (py_get o "login") as [login|]; [|done].
    injection H as <-. by cbn.
  - injection H as <-. by cbn.
Qed.

Section snapshot_lookups.
Context (d : dict) (session : Value) (base head : PullDestination.t)
        (api : string) (repository : Value).
Local Abbreviation o := (snapshot d session base head api repository).

Lemma snapshot_api : o !! "_api" = Some (VJson (JStr api)).
Proof. unfold snapshot. by lookup_attr. Qed.

Lemma snapshot_links :
  o !! "links"
  = Some (VDict
      [("self", VJson (JStr api));
       ("comments",
        VJson (JStr (join_slash (replace api "pulls" "issues") "comments")));
       ("issue", VJson (JStr (replace api "pulls" "issues")));
       ("html", VJson (get d "html_url"));
       ("review_comments", VJson (JStr (api +:+ "/comments")))]).
Proof. unfold snapshot. by lookup_attr. Qed.

Lemma snapshot_repository : o !! "repository" = Some repository.
Proof. unfold snapshot. by lookup_attr. Qed.

Lemma snapshot_user : o !! "user" = Some (user_attr (get d "user")).
Proof. unfold snapshot. by lookup_attr. Qed.

Lemma snapshot_assignee : o !! "assignee" = Some (user_attr (get d "assignee")).
Proof. unfold snapshot. by lookup_attr. Qed.

Lemma snapshot_merged_by :
  o !! "merged_by"
  = Some (if truthy (get d "merged_by")
          then VUser (User.__init__ (get d "merged_by")) else VNone).
Proof. unfold snapshot. by lookup_attr. Qed.

Lemma snapshot_base : o !! "base" = Some (VDest base).
Proof. unfold snapshot. by lookup_attr. Qed.

Lemma snapshot_head : o !! "head" = Some (VDest head).
Proof. unfold snapshot. by lookup_attr. Qed.

Lemma snapshot_labels : o !! "labels" = Some (VList []).
Proof. unfold snapshot. by lookup_attr. Qed.
End snapshot_lookups.

(** The links of every constructed pull request, as the source computes
    them. *)
Lemma new_links pull session o :
  PullRequest.new pull session = Ok o ->
  exists d api,
    pull = JObj d /\ get_default d "url" (JStr EmptyString) = JStr api
    /\ o !! "_api" = Some (VJson (JStr api))
    /\ link "self" o = Some (VJson (JStr api))
    /\ link "issue" o = Some (VJson (JStr (replace api "pulls" "issues")))
    /\ link "comments" o
       = Some (VJson (JStr (join_slash (replace api "pulls" "issues") "comments")))
    /\ link "review_comments" o = Some (VJson (JStr (api +:+ "/comments")))
    /\ link "html" o = Some (VJson (get d "html_url")).
Proof.
  intros (d & base & head & api & g & -> & [_ _ _ Hurl _] & ->)%new_ok_inv.
  exists d, api. unfold link. rewrite snapshot_links, snapshot_api. by cbn.
Qed.

(** ** [replace] where there is one occurrence *)

Lemma prefix_app (p s : string) : String.prefix p (p +:+ s) = true.
Proof. apply String.prefix_correct. apply substring_prefix. Qed.

Lemma replace_skip old new t s :
  replace_from old new (String.length t) (t +:+ s) = replace_from old new 0 s.
Proof. induction t as [|c t IH]; [done|]. rewrite app_cons. exact IH. Qed.

Lemma replace_absent old new s :
  old <> EmptyString -> occurs old s = false -> replace_from old new 0 s = s.
Proof.
  intros Hold. induction s as [|c s IH]; simpl.
  - by destruct old.
  - intros [Hp Ho]%orb_false_iff. destruct old as [|a old']; [done|].
    rewrite Hp. by rewrite IH.
Qed.

Lemma replace_at old new pre post :
  old <> EmptyString ->
  starts_within old pre (old +:+ post) = false ->
  replace_from old new 0 (pre +:+ old +:+ post)
  = pre +:+ new +:+ replace_from old new 0 post.
Proof.
  intros Hold. induction pre as [|c pre IH].
  - intros _. rewrite !app_nil. destruct old as [|a old']; [done|].
    rewrite app_cons. cbn [replace_from]. rewrite <- app_cons, prefix_app.
    by rewrite replace_skip.
  - cbn [starts_within]. intros [Hp Hs]%orb_false_iff.
    rewrite !app_cons in *. cbn [replace_from].
    destruct old as [|a old']; [done|]. rewrite Hp. by rewrite IH.
Qed.

(** Where [old] occurs once, [replace] replaces it in exactly one place. *)
Lemma replace_single old new pre post :
  old <> EmptyString ->
  starts_within old pre (old +:+ post) = false ->
  occurs old post = false ->
  replace (pre +:+ old +:+ post) old new = pre +:+ new +:+ post
  /\ replaced_once (pre +:+ old +:+ post) old new
       (replace (pre +:+ old +:+ post) old new).
Proof.
  intros Hold Hpre Hpost.
  assert (replace (pre +:+ old +:+ post) old new = pre +:+ new +:+ post) as ->.
  { unfold replace. by rewrite replace_at, replace_absent. }
  split; [done|]. by exists pre, post.
Qed.

Example replace_single_canonical :
  replaced_once "https://api.github.com/repos/octocat/hello/pulls/12" "pulls" "issues"
    (replace "https://api.github.com/repos/octocat/hello/pulls/12" "pulls" "issues").
Proof.
  by apply (replace_single "pulls" "issues"
              "https://api.github.com/repos/octocat/hello/" "/12").
Qed.

(** X9.  Where the API URL has [pulls] once, the links are the four URLs
    the comment in the source describes: [issue] is the API URL with that
    one [pulls] replaced by [issues]. *)
Lemma links_single_pulls d session o pre post :
  PullRequest.new (JObj d) session = Ok o ->
  get_default d "url" (JStr EmptyString) = JStr (pre +:+ "pulls" +:+ post) ->
  starts_within "pulls" pre ("pulls" +:+ post) = false ->
  occurs "pulls" post = false ->
  link "self" o = Some (VJson (JStr (pre +:+ "pulls" +:+ post)))
  /\ link "issue" o = Some (VJson (JStr (pre +:+ "issues" +:+ post)))
  /\ link "comments" o
     = Some (VJson (JStr (join_slash (pre +:+ "issues" +:+ post) "comments")))
  /\ link "review_comments" o
     = Some (VJson (JStr ((pre +:+ "pulls" +:+ post) +:+ "/comments"))).
Proof.
  intros (d' & api & [= <-] & Hu & _ & Hs & Hi & Hc & Hr & _)%new_links Hurl Hpre Hpost.
  rewrite Hurl in Hu. injection Hu as <-.
  destruct (replace_single "pulls" "issues" pre post) as [Hrep _]; [done..|].
  by rewrite Hrep in Hi, Hc.
Qed.

Lemma links_single_pulls_witness :
  link "issue" (attrs sample_state)
  = Some (VJson (JStr "https://api.github.com/repos/octocat/hello/issues/12"))
  /\ link "comments" (attrs sample_state)
     = Some (VJson (JStr "https://api.github.com/repos/octocat/hello/issues/12/comments")).
Proof.
  assert (PullRequest.new (JObj sample_fields) authed = Ok (attrs sample_state))
    as Hnew by (apply state_of_new; vm_compute; reflexivity).
  destruct (links_single_pulls sample_fields authed (attrs sample_state)
              "https://api.github.com/repos/octocat/hello/" "/12"
              Hnew eq_refl eq_refl eq_refl) as (_ & Hi & Hc & _).
  split; [exact Hi | exact Hc].
Defined.

(** C1.  The pull request number 7 of a repository that is itself called
    [pulls] is constructed, and its [issue] link is the API URL with
    [pulls] replaced twice: it is not the URL with [pulls] replaced in
    exactly one place, and it is not the URL of the issue. *)
Theorem issue_link_replaces_every_pulls :
  exists o,
    PullRequest.new pulls_repo_pull VNone = Ok o
    /\ o !! "_api" = Some (VJson (JStr pulls_repo_url))
    /\ link "self" o = Some (VJson (JStr pulls_repo_url))
    /\ link "issue" o
       = Some (VJson (JStr "https://api.github.com/repos/octocat/issues/issues/7"))
    /\ link "comments" o
       = Some (VJson (JStr "https://api.github.com/repos/octocat/issues/issues/7/comments"))
    /\ ~ replaced_once pulls_repo_url "pulls" "issues"
           "https://api.github.com/repos/octocat/issues/issues/7".
Proof.
  exists (attrs (state_of pulls_repo_pull VNone)).
  split; [apply state_of_new; vm_compute; reflexivity|].
  do 4 (split; [vm_compute; reflexivity|]).
  intros (pre & post & H1 & H2).
  apply (f_equal String.length) in H1, H2.
  rewrite !string_app_length in H1, H2. simpl in H1, H2. lia.
Qed.

(** * The repository pair *)

(** C6.  The pair [repository] is what the pattern
    [https://<host>/<owner>/<repo>/(issues|pull)?/<number>] captures in the
    issue URL: a constructed pull request has an issue URL of that shape and
    stores the two groups [re.match] returned; a payload whose issue URL is
    absent, is not a string, or has not that shape is not constructed, the
    constructor raises. *)
Theorem repository_is_captured_from_issue_url pull session :
  (forall o,
     PullRequest.new pull session = Ok o ->
     exists d url owner repo,
       pull = JObj d /\ get d "issue_url" = JStr url
       /\ re_match issue_url_pattern url = Some [owner; repo]
       /\ issue_url_shape url owner repo
       /\ o !! "repository" = Some (VTuple [VJson (JStr owner); VJson (JStr repo)]))
  /\ ((forall d url owner repo,
         pull = JObj d -> get d "issue_url" = JStr url ->
         ~ issue_url_shape url owner repo) ->
      exists e, PullRequest.new pull session = Raise e)
  /\ (forall d url owner repo,
        pull = JObj d -> get d "issue_url" = JStr url ->
        issue_url_shape url owner repo ->
        is_Some (re_match issue_url_pattern url)).
Proof.
  assert (forall o,
     PullRequest.new pull session = Ok o ->
     exists d url owner repo,
       pull = JObj d /\ get d "issue_url" = JStr url
       /\ re_match issue_url_pattern url = Some [owner; repo]
       /\ issue_url_shape url owner repo
       /\ o !! "repository" = Some (VTuple [VJson (JStr owner); VJson (JStr repo)]))
    as Hok.
  { intros o (d & base & head & api & g & -> & [_ _ _ _ (u & Hu & Hg)] & ->)%new_ok_inv.
    destruct (re_match_issue_url_shape _ _ Hg) as (owner & repo & -> & Hshape).
    exists d, u, owner, repo. by rewrite snapshot_repository. }
  split; [exact Hok|]. split.
  - intros Hno. destruct (PullRequest.new pull session) as [o|e] eqn:Hn; [|eauto].
    destruct (Hok o eq_refl) as (d & url & owner & repo & Hp & Hu & _ & Hs & _).
    by destruct (Hno d url owner repo).
  - intros d url owner repo _ _ Hs. by eapply issue_url_shape_re_match.
Qed.

Lemma repository_is_captured_from_issue_url_witness :
  attrs sample_state !! "repository"
  = Some (VTuple [VJson (JStr "repos/octocat"); VJson (JStr "hello")])
  /\ exists e, PullRequest.new (JObj (dict_remove "issue_url" sample_fields)) VNone
               = Raise e.
Proof.
  assert (PullRequest.new sample_pull authed = Ok (attrs sample_state)) as Hnew
    by (apply state_of_new; vm_compute; reflexivity).
  split.
  - destruct (repository_is_captured_from_issue_url sample_pull authed) as [H _].
    destruct (H _ Hnew) as (d & url & owner & repo & Hd & Hu & Hm & _ & Hr).
    injection Hd as <-. vm_compute in Hu. injection Hu as <-.
    vm_compute in Hm. injection Hm as <- <-. exact Hr.
  - destruct (repository_is_captured_from_issue_url
                (JObj (dict_remove "issue_url" sample_fields)) VNone) as (_ & H & _).
    apply H. intros d url owner repo Hd Hu. injection Hd as <-.
    vm_compute in Hu. discriminate.
Defined.

(** * Nested objects that are absent *)

Lemma accepted_cons k v d base head api g :
  k <> "base" -> k <> "head" -> k <> "labels" -> k <> "url" -> k <> "issue_url" ->
  accepted ((k, v) :: d) base head api g <-> accepted d base head api g.
Proof.
  intros ?????.
  split; intros [Hb Hh Hl Hu Hi]; split;
    rewrite ?get_cons_ne, ?get_default_cons_ne in * by done; done.
Qed.

(** Binding a key the constructor does not depend on never changes whether
    it returns. *)
Lemma new_cons_is_ok k v d session :
  k <> "base" -> k <> "head" -> k <> "labels" -> k <> "url" -> k <> "issue_url" ->
  is_ok (PullRequest.new (JObj ((k, v) :: d)) session)
  = is_ok (PullRequest.new (JObj d) session).
Proof.
  intros ?????.
  destruct (PullRequest.new (JObj d) session) as [o|e] eqn:Hd.
  - apply new_ok_inv in Hd as (d' & base & head & api & g & [= <-] & Ha & ->).
    apply (accepted_cons k v) in Ha; [|done..].
    by rewrite (new_ok _ _ _ _ _ _ Ha).
  - destruct (PullRequest.new (JObj ((k, v) :: d)) session) as [o|e'] eqn:Hk; [|done].
    apply new_ok_inv in Hk as (d' & base & head & api & g & [= <-] & Ha & ->).
    apply accepted_cons in Ha; [|done..].
    rewrite (new_ok _ _ _ _ _ _ Ha) in Hd. discriminate.
Qed.

(** C7 as stated fails for the endpoints: the sample payload is
    constructed, and without its [base] (or without its [head], or with a
    null [base]) the constructor raises [AttributeError] instead of leaving
    the attribute empty. *)
Lemma absent_endpoint_is_rejected :
  is_ok (PullRequest.new (JObj sample_fields) VNone) = true
  /\ dict_lookup "base" (dict_remove "base" sample_fields) = None
  /\ PullRequest.new (JObj (dict_remove "base" sample_fields)) VNone
     = Raise AttributeError
  /\ PullRequest.new (JObj (dict_remove "head" sample_fields)) VNone
     = Raise AttributeError
  /\ PullRequest.new (JObj (("base", JNull) :: sample_fields)) VNone
     = Raise AttributeError.
Proof. vm_compute. repeat split; reflexivity. Qed.

(** C7, amended.  In a constructed pull request a [user], [assignee] or
    [merged_by] that is absent or null is [None], and making one of them
    null never makes the constructor raise.  The endpoints [base] and [head]
    are required: they are always [PullDestination] objects built from a
    JSON object, and when one is absent or null the constructor raises
    ([AttributeError] for [base]).  Inside an endpoint an absent or null
    [user] is [None] and an absent or null [repo] gives the pair
    [('', '')]. *)
Theorem absent_users_are_none_and_endpoints_required d session :
  (forall o,
     PullRequest.new (JObj d) session = Ok o ->
     (get d "user" = JNull -> o !! "user" = Some VNone)
     /\ (get d "assignee" = JNull -> o !! "assignee" = Some VNone)
     /\ (get d "merged_by" = JNull -> o !! "merged_by" = Some VNone)
     /\ exists base head bd hd,
          get d "base" = JObj bd /\ get d "head" = JObj hd
          /\ o !! "base" = Some (VDest base) /\ o !! "head" = Some (VDest head)
          /\ (get bd "user" = JNull -> PullDestination.user base = None)
          /\ (get bd "repo" = JNull -> PullDestination.repo base = (JStr EmptyString, JStr EmptyString))
          /\ (get hd "user" = JNull -> PullDestination.user head = None)
          /\ (get hd "repo" = JNull -> PullDestination.repo head = (JStr EmptyString, JStr EmptyString)))
  /\ (forall k, k = "user" \/ k = "assignee" \/ k = "merged_by" ->
        is_ok (PullRequest.new (JObj ((k, JNull) :: d)) session)
        = is_ok (PullRequest.new (JObj d) session))
  /\ (get d "base" = JNull -> PullRequest.new (JObj d) session = Raise AttributeError)
  /\ (get d "head" = JNull -> exists e, PullRequest.new (JObj d) session = Raise e).
Proof.
  split; [|split; [|split]].
  - intros o (d' & base & head & api & g & [= <-] & [Hb Hh _ _ _] & ->)%new_ok_inv.
    rewrite snapshot_user, snapshot_assignee, snapshot_merged_by,
      snapshot_base, snapshot_head. unfold user_attr.
    split; [by intros ->|]. split; [by intros ->|]. split; [by intros ->|].
    apply destination_ok_inv in Hb as (bd & Hbd & _ & _ & _ & _ & Hbu & Hbr).
    apply destination_ok_inv in Hh as (hd & Hhd & _ & _ & _ & _ & Hhu & Hhr).
    exists base, head, bd, hd. do 4 (split; [done|]).
    split; [intros Hn; by rewrite Hbu, Hn|].
    split; [intros Hn; apply Hbr; by rewrite Hn|].
    split; [intros Hn; by rewrite Hhu, Hn|].
    intros Hn; apply Hhr; by rewrite Hn.
  - intros k [->|[->| ->]]; by apply new_cons_is_ok.
  - intros Hb. rewrite new_construct. unfold construct. by rewrite Hb.
  - intros Hh. destruct (PullRequest.new (JObj d) session) as [o|e] eqn:Hn; [|eauto].
    apply new_ok_inv in Hn as (d' & base & head & api & g & [= <-] & [_ Hh' _ _ _] & _).
    by rewrite Hh in Hh'.
Qed.

Lemma absent_users_are_none_and_endpoints_required_witness :
  attrs sample_state !! "merged_by" = Some VNone
  /\ attrs sample_state !! "assignee" = Some VNone
  /\ PullRequest.new (JObj (dict_remove "base" sample_fields)) authed
     = Raise AttributeError.
Proof.
  assert (PullRequest.new (JObj sample_fields) authed = Ok (attrs sample_state))
    as Hnew by (apply state_of_new; vm_compute; reflexivity).
  destruct (absent_users_are_none_and_endpoints_required sample_fields authed)
    as (H & _).
  destruct (H _ Hnew) as (_ & Ha & Hm & _).
  split; [apply Hm; reflexivity|]. split; [apply Ha; reflexivity|].
  apply (absent_users_are_none_and_endpoints_required
           (dict_remove "base" sample_fields) authed).
  reflexivity.
Defined.

(** * Review comments *)

(** C9.  A review comment is constructed from every JSON object.  When
    [position] is absent or null the attribute [position] is the number 0,
    not [None]; a position that is given (and not zero or empty) is kept.
    [original_position], [path], [commit_id], [diff_hunk] and
    [original_commit_id] are the payload's values as they came, and [user]
    is the payload's user, made a [User], or [None] without one. *)
Theorem review_comment_position_defaults_to_zero (d : dict) session :
  exists o,
    ReviewComment.new (JObj d) session = Ok o
    /\ (dict_lookup "position" d = None \/ dict_lookup "position" d = Some JNull ->
        o !! "position" = Some (VJson (JNum 0)))
    /\ (truthy (get d "position") = true ->
        o !! "position" = Some (VJson (get d "position")))
    /\ o !! "original_position" = Some (VJson (get d "original_position"))
    /\ o !! "path" = Some (VJson (get d "path"))
    /\ o !! "commit_id" = Some (VJson (get d "commit_id"))
    /\ o !! "diff_hunk" = Some (VJson (get d "diff_hunk"))
    /\ o !! "original_commit_id" = Some (VJson (get d "original_commit_id"))
    /\ o !! "user"
       = Some (if truthy (get d "user")
               then VUser (User.__init__ (get d "user")) else VNone).
Proof.
  unfold ReviewComment.new, ReviewComment.__init__, BaseComment.__init__,
    GitHubCore.__init__.
  run.
  all: eexists; split; [reflexivity|].
  all: split; [intros Hp%get_null; unfold py_or; rewrite Hp; by lookup_attr|].
  all: split; [intros Hp; unfold py_or; rewrite Hp; by lookup_attr|].
  all: repeat (split; [by lookup_attr|]).
  all: by lookup_attr.
Qed.

Lemma review_comment_position_defaults_to_zero_witness :
  exists o,
    ReviewComment.new sample_comment VNone = Ok o
    /\ o !! "position" = Some (VJson (JNum 0))
    /\ o !! "path" = Some (VJson (JStr "file1.txt")).
Proof.
  destruct (review_comment_position_defaults_to_zero
              [("id", JNum 10); ("path", JStr "file1.txt");
               ("original_position", JNum 4);
               ("commit_id", JStr "6dcb09b5"); ("original_commit_id", JStr "9c48853f");
               ("diff_hunk", JStr "@@ -16,33 +16,40 @@");
               ("user", octocat)] VNone)
    as (o & Hnew & Hpos & _ & _ & Hpath & _).
  exists o. split; [exact Hnew|]. split; [apply Hpos; by left | exact Hpath].
Defined.

(** * Labels *)

Lemma construct_labels_raise d session base head e :
  PullDestination.__init__ (get d "base") "Base" = Ok base ->
  PullDestination.__init__ (get d "head") "Head" = Ok head ->
  (elems ← py_iter (get d "labels"); PullRequest.label_objects elems) = Raise e ->
  PullRequest.new (JObj d) session = Raise e.
Proof.
  intros Hb Hh Hl. rewrite new_construct. unfold construct. rewrite Hb, Hh.
  cbn [mbind Res_bind] in *.
  destruct (py_iter (get d "labels")) as [elems|e'];
    cbn [mbind Res_bind] in *; [rewrite Hl; reflexivity | congruence].
Qed.

(** C10.  The constructor returns only for payloads whose [labels] are
    present and have nothing to iterate over (for a list: the empty list).
    Without the key it raises, [TypeError] once the endpoints are decoded;
    with a non-empty list it raises, [NameError] once the endpoints are
    decoded, because [Label] is not a name of the module.  So a payload that
    is constructed stops being so when its labels are made non-empty. *)
Theorem labels_must_be_present_and_empty d session :
  (dict_lookup "labels" d = None ->
   exists e, PullRequest.new (JObj d) session = Raise e)
  /\ (forall l ls, dict_lookup "labels" d = Some (JList (l :: ls)) ->
      exists e, PullRequest.new (JObj d) session = Raise e)
  /\ (forall base head,
        PullDestination.__init__ (get d "base") "Base" = Ok base ->
        PullDestination.__init__ (get d "head") "Head" = Ok head ->
        (dict_lookup "labels" d = None ->
         PullRequest.new (JObj d) session = Raise TypeError)
        /\ (forall l ls, dict_lookup "labels" d = Some (JList (l :: ls)) ->
            PullRequest.new (JObj d) session = Raise NameError))
  /\ (forall o,
        PullRequest.new (JObj d) session = Ok o ->
        (exists v, dict_lookup "labels" d = Some v /\ py_iter v = Ok []
                   /\ forall ls, v = JList ls -> ls = [])
        /\ o !! "labels" = Some (VList [])
        /\ forall l ls,
             PullRequest.new (JObj (("labels", JList (l :: ls)) :: d)) session
             = Raise NameError).
Proof.
  assert (forall o,
        PullRequest.new (JObj d) session = Ok o ->
        (exists v, dict_lookup "labels" d = Some v /\ py_iter v = Ok []
                   /\ forall ls, v = JList ls -> ls = [])
        /\ o !! "labels" = Some (VList [])
        /\ forall l ls,
             PullRequest.new (JObj (("labels", JList (l :: ls)) :: d)) session
             = Raise NameError) as Hok.
  { intros o (d' & base & head & api & g & [= <-] & [Hb Hh Hl _ _] & ->)%new_ok_inv.
    split; [|split; [apply snapshot_labels|]].
    - unfold get, get_default in Hl.
      destruct (dict_lookup "labels" d) as [v|]; [|discriminate].
      exists v. split; [done|]. split; [done|]. intros ls ->. by injection Hl.
    - intros l ls. apply (construct_labels_raise _ _ base head);
        rewrite ?get_cons_ne, ?get_cons_eq by done; done. }
  split; [|split; [|split; [|exact Hok]]].
  - intros Hn. destruct (PullRequest.new (JObj d) session) as [o|e] eqn:E; [|eauto].
    destruct (Hok o eq_refl) as ((v & Hv & _) & _). congruence.
  - intros l ls Hn. destruct (PullRequest.new (JObj d) session) as [o|e] eqn:E; [|eauto].
    destruct (Hok o eq_refl) as ((v & Hv & _ & Hls) & _).
    rewrite Hn in Hv. injection Hv as <-. by specialize (Hls _ eq_refl).
  - intros base head Hb Hh. split.
    + intros Hn. apply (construct_labels_raise _ _ base head); [done..|].
      unfold get, get_default. by rewrite Hn.
    + intros l ls Hn. apply (construct_labels_raise _ _ base head); [done..|].
      unfold get, get_default. by rewrite Hn.
Qed.

Lemma labels_must_be_present_and_empty_witness :
  PullRequest.new (JObj (dict_remove "labels" sample_fields)) VNone = Raise TypeError
  /\ PullRequest.new (JObj (("labels", JList [JObj [("name", JStr "bug")]])
                            :: sample_fields)) authed
     = Raise NameError.
Proof.
  split.
  - destruct (labels_must_be_present_and_empty
                (dict_remove "labels" sample_fields) VNone) as (_ & _ & H & _).
    eapply H; vm_compute; reflexivity.
  - assert (PullRequest.new (JObj sample_fields) authed = Ok (attrs sample_state))
      as Hnew by (apply state_of_new; vm_compute; reflexivity).
    destruct (labels_must_be_present_and_empty sample_fields authed)
      as (_ & _ & _ & H).
    apply (H _ Hnew).
Defined.

(** * The repository pair of a well-formed issue URL *)

Lemma count_char_app c (s t : string) :
  count_char c (s +:+ t) = count_char c s + count_char c t.
Proof.
  induction s as [|a s IH]; rewrite ?app_nil, ?app_cons; [done|].
  cbn [count_char]. rewrite IH. lia.
Qed.

Lemma digits_no_slash s : string_forall is_digit s = true -> count_char "/" s = 0.
Proof.
  induction s as [|a s IH]; [done|]. cbn [string_forall count_char].
  intros [Ha Hs]%andb_true_iff. rewrite (IH Hs).
  destruct (Ascii.eqb_spec a "/") as [->|]; [discriminate Ha|done].
Qed.

(** The search prefers the longest run: where the continuation accepts after
    [p] and after no longer run, the result is the continuation's after
    [p]. *)
Lemma plus_greedy_longest {R} cls p rest (k : string -> option R) g :
  p <> EmptyString -> string_forall cls p = true ->
  k rest = Some g ->
  (forall q rest', q <> EmptyString -> rest = q +:+ rest' ->
                   string_forall cls q = true -> k rest' = None) ->
  plus_greedy cls (p +:+ rest) k = Some g.
Proof.
  intros Hne Hp Hk Hlong. induction p as [|c p IH]; [done|].
  rewrite app_cons. cbn [plus_greedy]. cbn [string_forall] in Hp.
  apply andb_true_iff in Hp as [-> Hp].
  destruct p as [|c' p].
  - rewrite app_nil. destruct (plus_greedy cls rest k) as [g'|] eqn:Hg; [|done].
    apply plus_greedy_sound in Hg as (q & rest' & -> & Hq & Hcq & Hk').
    by rewrite (Hlong q rest' Hq eq_refl Hcq) in Hk'.
  - by rewrite (IH ltac:(done) Hp).
Qed.

Lemma rmatch_Lit_app t rest caps k : rmatch (Lit t) (t +:+ rest) caps k = k rest caps.
Proof. cbn [rmatch]. by rewrite strip_prefix_app. Qed.

Lemma app_empty_r (s : string) : s +:+ EmptyString = s.
Proof. induction s as [|a s IH]; rewrite ?app_nil, ?app_cons; congruence. Qed.

(** What is left after the second group has at least two slashes, what is
    left after the first at least three. *)
Lemma after_repo_slashes s rest caps caps' :
  matches after_repo s rest caps caps' -> 2 <= count_char "/" s.
Proof.
  unfold after_repo. intros H. invert_matches.
  all: rewrite ?count_char_app; cbn [count_char Ascii.eqb Bool.eqb]; lia.
Qed.

Lemma after_owner_slashes s rest caps caps' :
  matches after_owner s rest caps caps' -> 3 <= count_char "/" s.
Proof.
  unfold after_owner. intros H. invert_matches.
  match goal with H : matches after_repo _ _ _ _ |- _ => apply after_repo_slashes in H end.
  rewrite !count_char_app. cbn [count_char Ascii.eqb Bool.eqb]. lia.
Qed.

(** The end of the pattern on the end of a well-formed URL. *)
Lemma digits_match {R} number (caps : R) :
  number <> EmptyString -> string_forall is_digit number = true ->
  plus_greedy is_digit number (fun _ => Some caps) = Some caps.
Proof.
  intros Hn Hd.
  destruct (plus_greedy_complete is_digit number EmptyString
              (fun _ : string => Some caps) Hn Hd ltac:(eauto)) as [g Hg].
  rewrite app_empty_r in Hg. rewrite Hg.
  by apply plus_greedy_sound in Hg as (? & ? & _ & _ & _ & [= ->]).
Qed.

Lemma strip_prefix_mismatch a t b s :
  Ascii.eqb a b = false -> strip_prefix (String a t) (String b s) = None.
Proof. intros H. cbn [strip_prefix]. by rewrite H. Qed.

Lemma after_repo_match kind number caps :
  kind = "issues" \/ kind = "pull" \/ kind = EmptyString ->
  number <> EmptyString -> string_forall is_digit number = true ->
  rmatch after_repo ("/" +:+ kind +:+ "/" +:+ number) caps (fun _ caps' => Some caps')
  = Some caps.
Proof.
  intros Hk Hn Hd. pose proof (digits_match number caps Hn Hd) as Htail.
  unfold after_repo. cbn [rmatch]. rewrite strip_prefix_app.
  destruct Hk as [->|[->| ->]].
  - rewrite !strip_prefix_app. by rewrite Htail.
  - rewrite (app_cons "p"), strip_prefix_mismatch by done.
    rewrite <- app_cons, !strip_prefix_app. by rewrite Htail.
  - rewrite app_nil, (app_cons "/"), !strip_prefix_mismatch by done.
    rewrite <- app_cons, strip_prefix_app. by rewrite Htail.
Qed.

Lemma app_head c (x q rest : string) :
  String c x = q +:+ rest -> q <> EmptyString -> exists q', q = String c q' /\ x = q' +:+ rest.
Proof.
  destruct q as [|a q']; [done|]. rewrite app_cons. intros [= -> ->] _. eauto.
Qed.

(** [re.match] on [https://<host>/<path>/<name>/<kind>/<number>], where
    [name] has no slash: the greedy first group takes the whole [path],
    slashes included. *)
Lemma re_match_path host path name kind number :
  host <> EmptyString -> string_forall host_char host = true ->
  path <> EmptyString -> string_forall non_space path = true ->
  name <> EmptyString -> string_forall non_space name = true ->
  count_char "/" name = 0 ->
  kind = "issues" \/ kind = "pull" \/ kind = EmptyString ->
  number <> EmptyString -> string_forall is_digit number = true ->
  re_match issue_url_pattern
    ("https://" +:+ host +:+ "/" +:+ path +:+ "/" +:+ name +:+ "/" +:+ kind
     +:+ "/" +:+ number)
  = Some [path; name].
Proof.
  intros Hh Hhc Hp Hpc Hn Hnc Hns Hk Hd Hdc.
  assert (count_char "/" ("/" +:+ kind +:+ "/" +:+ number) = 2) as Hc2.
  { rewrite !count_char_app, (digits_no_slash _ Hdc).
    by destruct Hk as [->|[->| ->]]. }
  unfold re_match.
  change issue_url_pattern
    with (Seq (Lit "https://") (Seq (Plus host_char) (Seq (Lit "/")
           (Seq (Group (Plus non_space)) after_owner)))).
  cbn [rmatch]. rewrite strip_prefix_app.
  apply plus_greedy_longest; [done..| |].
  2:{ intros q rest' Hq Heq Hcq. rewrite app_cons, app_nil in Heq.
      apply app_head in Heq as (q' & -> & _); [|done]. discriminate Hcq. }
  rewrite strip_prefix_app.
  apply plus_greedy_longest; [done..| |].
  2:{ intros q rest' Hq Heq Hcq.
      destruct (rmatch after_owner rest' _ _) as [g|] eqn:E; [|done].
      apply rmatch_sound in E as (r & c' & Hm%after_owner_slashes & _).
      pose proof (f_equal (count_char "/") Heq) as Hcount.
      rewrite (count_char_app _ "/"), (count_char_app _ name), Hns, Hc2,
        (count_char_app _ q) in Hcount.
      rewrite app_cons, app_nil in Heq.
      apply app_head in Heq as (q' & -> & _); [|done].
      cbn [count_char Ascii.eqb Bool.eqb] in Hcount. lia. }
  rewrite consumed_app. unfold after_owner. cbn [rmatch].
  rewrite strip_prefix_app.
  apply plus_greedy_longest; [done..| |].
  2:{ intros q rest' Hq Heq Hcq.
      destruct (rmatch after_repo rest' _ _) as [g|] eqn:E; [|done].
      apply rmatch_sound in E as (r & c' & Hm%after_repo_slashes & _).
      pose proof (f_equal (count_char "/") Heq) as Hcount.
      rewrite Hc2, (count_char_app _ q) in Hcount.
      rewrite app_cons, app_nil in Heq.
      apply app_head in Heq as (q' & -> & _); [|done].
      cbn [count_char Ascii.eqb Bool.eqb] in Hcount. lia. }
  rewrite consumed_app. by apply after_repo_match.
Qed.

(** X11.  For an issue URL
    [https://<host>/<path>/<name>/<kind>/<number>] whose [name] has no
    slash, [repository] is the pair [(path, name)]: the first, greedy group
    takes everything between the host and the name, slashes included.  For
    the issue URL of the API, [https://<host>/repos/<owner>/<repo>/issues/<n>],
    that is [('repos/<owner>', '<repo>')], not [('<owner>', '<repo>')]. *)
Theorem repository_holds_the_whole_path_before_the_name
    d session o host path name kind number :
  PullRequest.new (JObj d) session = Ok o ->
  get d "issue_url"
  = JStr ("https://" +:+ host +:+ "/" +:+ path +:+ "/" +:+ name +:+ "/" +:+ kind
          +:+ "/" +:+ number) ->
  host <> EmptyString -> string_forall host_char host = true ->
  path <> EmptyString -> string_forall non_space path = true ->
  name <> EmptyString -> string_forall non_space name = true ->
  count_char "/" name = 0 ->
  kind = "issues" \/ kind = "pull" \/ kind = EmptyString ->
  number <> EmptyString -> string_forall is_digit number = true ->
  o !! "repository" = Some (VTuple [VJson (JStr path); VJson (JStr name)]).
Proof.
  intros (d' & base & head & api & g & [= <-] & [_ _ _ _ (u & Hu & Hg)] & ->)%new_ok_inv
    Hurl Hh Hhc Hp Hpc Hn Hnc Hns Hk Hd Hdc.
  rewrite Hurl in Hu. injection Hu as <-.
  rewrite re_match_path in Hg by done. injection Hg as <-.
  by rewrite snapshot_repository.
Qed.

Lemma repository_holds_the_whole_path_before_the_name_witness :
  attrs sample_state !! "repository"
  = Some (VTuple [VJson (JStr "repos/octocat"); VJson (JStr "hello")]).
Proof.
  assert (PullRequest.new (JObj sample_fields) authed = Ok (attrs sample_state))
    as Hnew by (apply state_of_new; vm_compute; reflexivity).
  apply (repository_holds_the_whole_path_before_the_name sample_fields authed
           (attrs sample_state) "api.github.com" "repos/octocat" "hello" "issues" "12"
           Hnew eq_refl);
    [discriminate|reflexivity|discriminate|reflexivity|discriminate|reflexivity
    |reflexivity|by left|discriminate|reflexivity].
Defined.

(** * The endpoints *)

(** X1.  An endpoint that is constructed was given a JSON object and keeps
    the direction it was given; its pair [repo] is made of its two private
    fields.  When the object has a (non-empty) [repo], that is an object
    whose [owner] is an object, and the pair is the owner's [login] and the
    repository's [name], each [None] when the key is missing. *)
Theorem destination_repo_is_login_and_name dest direction t :
  PullDestination.__init__ dest direction = Ok t ->
  exists d,
    dest = JObj d
    /\ PullDestination.direction t = direction
    /\ PullDestination.repo t
       = (PullDestination._repo_owner t, PullDestination._repo_name t)
    /\ (truthy (get d "repo") = true ->
        exists rd od,
          get d "repo" = JObj rd /\ dict_lookup "owner" rd = Some (JObj od)
          /\ PullDestination.repo t = (get od "login", get rd "name")
          /\ (dict_lookup "login" od = None -> (PullDestination.repo t).1 = JNull)
          /\ (dict_lookup "name" rd = None -> (PullDestination.repo t).2 = JNull)).
Proof.
  unfold PullDestination.__init__.
  destruct dest as [| | | | |d]; try discriminate.
  cbn [py_get mbind Res_bind]. intros H. exists d. split; [done|].
  destruct (truthy (get d "repo")) eqn:Ht.
  - destruct (get d "repo") as [| | | | |rd]; try discriminate H.
    cbn [py_get py_getitem mbind Res_bind] in H.
    destruct (dict_lookup "owner" rd) as [o|] eqn:Ho; [|discriminate H].
    destruct o as [| | | | |od]; try discriminate H.
    cbn [py_get mbind Res_bind mret Res_ret] in H. injection H as <-.
    cbn. do 2 (split; [done|]). intros _. exists rd, od.
    do 3 (split; [done|]). unfold get, get_default. split; by intros ->.
  - injection H as <-. by cbn.
Qed.

Lemma destination_repo_is_login_and_name_witness :
  exists t,
    PullDestination.__init__ (sample_destination "master" "master") "Base" = Ok t
    /\ PullDestination.repo t = (JStr "octocat", JStr "hello").
Proof.
  destruct (PullDestination.__init__ (sample_destination "master" "master") "Base")
    as [t|] eqn:Ht; [|discriminate Ht].
  exists t. split; [done|].
  destruct (destination_repo_is_login_and_name _ _ _ Ht)
    as (d & [= <-] & _ & _ & Hrepo).
  destruct (Hrepo eq_refl) as (rd & od & [= <-] & [= <-] & -> & _).
  reflexivity.
Defined.

(** X2.  What an endpoint is built from.  [None] raises [AttributeError].
    A JSON object is accepted when its [repo] is absent, null or otherwise
    empty, or is an object whose [owner] is an object; a non-empty [repo]
    that is not an object raises [AttributeError], one without the key
    [owner] raises [KeyError], one whose [owner] is not an object raises
    [AttributeError]. *)
Theorem destination_needs_the_owner_of_a_repo (d : dict) direction :
  PullDestination.__init__ JNull direction = Raise AttributeError
  /\ (truthy (get d "repo") = false ->
      is_ok (PullDestination.__init__ (JObj d) direction) = true)
  /\ (truthy (get d "repo") = true -> (forall rd, get d "repo" <> JObj rd) ->
      PullDestination.__init__ (JObj d) direction = Raise AttributeError)
  /\ (forall rd, get d "repo" = JObj rd -> rd <> [] ->
      dict_lookup "owner" rd = None ->
      PullDestination.__init__ (JObj d) direction = Raise KeyError)
  /\ (forall rd o, get d "repo" = JObj rd -> dict_lookup "owner" rd = Some o ->
      (forall od, o <> JObj od) ->
      PullDestination.__init__ (JObj d) direction = Raise AttributeError)
  /\ (forall rd od, get d "repo" = JObj rd ->
      dict_lookup "owner" rd = Some (JObj od) ->
      is_ok (PullDestination.__init__ (JObj d) direction) = true).
Proof.
  split; [done|].
  unfold PullDestination.__init__. cbn [py_get mbind Res_bind].
  split; [by intros ->|]. split; [|split; [|split]].
  - intros -> Hrd. destruct (get d "repo"); try done. by destruct (Hrd d0).
  - intros rd -> Hne Ho. destruct rd; [done|]. cbn [truthy py_get py_getitem mbind Res_bind].
    by rewrite Ho.
  - intros rd o -> Ho Hod.
    assert (truthy (JObj rd) = true) as -> by (by destruct rd).
    cbn [py_get py_getitem mbind Res_bind]. rewrite Ho.
    destruct o; try done. by destruct (Hod d0).
  - intros rd od -> Ho.
    assert (truthy (JObj rd) = true) as -> by (by destruct rd).
    cbn [py_get py_getitem mbind Res_bind]. by rewrite Ho.
Qed.

Lemma destination_needs_the_owner_of_a_repo_witness :
  PullDestination.__init__
    (JObj [("ref", JStr "master"); ("repo", JObj [("name", JStr "hello")])]) "Base"
  = Raise KeyError
  /\ PullDestination.__init__
       (JObj [("ref", JStr "master");
              ("repo", JObj [("name", JStr "hello"); ("owner", JNull)])]) "Base"
     = Raise AttributeError
  /\ is_ok (PullDestination.__init__ (JObj [("ref", JStr "master")]) "Base") = true.
Proof.
  split; [|split].
  - apply (destination_needs_the_owner_of_a_repo
             [("ref", JStr "master"); ("repo", JObj [("name", JStr "hello")])] "Base")
      with (rd := [("name", JStr "hello")]); [reflexivity|discriminate|reflexivity].
  - apply (destination_needs_the_owner_of_a_repo
             [("ref", JStr "master");
              ("repo", JObj [("name", JStr "hello"); ("owner", JNull)])] "Base")
      with (rd := [("name", JStr "hello"); ("owner", JNull)]) (o := JNull);
      [reflexivity|reflexivity|discriminate].
  - apply (destination_needs_the_owner_of_a_repo [("ref", JStr "master")] "Base").
    reflexivity.
Defined.

(** * Files *)

(** X3.  A file entry is decoded from every JSON object, and [None] in
    its place raises [AttributeError]; each attribute is the value under its
    key, [None] when the key is missing; and two objects decode to the same
    file exactly when they agree on the nine keys. *)
Theorem pull_file_keeps_the_nine_keys :
  PullFile.__init__ JNull = Raise AttributeError
  /\ (forall d,
        PullFile.__init__ (JObj d)
        = Ok {| PullFile.sha := get d "sha"; PullFile.filename := get d "filename";
                PullFile.status := get d "status";
                PullFile.additions := get d "additions";
                PullFile.deletions := get d "deletions";
                PullFile.changes := get d "changes";
                PullFile.blob_url := get d "blob_url";
                PullFile.raw_url := get d "raw_url";
                PullFile.patch := get d "patch" |})
  /\ (forall d k, dict_lookup k d = None -> get d k = JNull)
  /\ (forall d d',
        PullFile.__init__ (JObj d) = PullFile.__init__ (JObj d')
        <-> Forall (fun k => get d k = get d' k) pull_file_keys).
Proof.
  split; [done|split; [done|split]].
  - intros d k Hk. unfold get, get_default. by rewrite Hk.
  - intros d d'. unfold pull_file_keys. cbn [PullFile.__init__ py_get mbind Res_bind mret Res_ret].
    rewrite !Forall_cons. split.
    + intros [=]. naive_solver.
    + intros (-> & -> & -> & -> & -> & -> & -> & -> & -> & _). done.
Qed.

Lemma pull_file_keeps_the_nine_keys_witness :
  exists f,
    PullFile.__init__ sample_file = Ok f
    /\ PullFile.filename f = JStr "file1.txt"
    /\ PullFile.blob_url f = JNull
    /\ PullFile.__init__ (JObj [("filename", JStr "file1.txt"); ("size", JNum 3)])
       = PullFile.__init__ (JObj [("filename", JStr "file1.txt")]).
Proof.
  destruct pull_file_keeps_the_nine_keys as (_ & Hd & _ & Hsame).
  eexists. split; [apply Hd|]. split; [reflexivity|]. split; [reflexivity|].
  apply Hsame. unfold pull_file_keys. by repeat constructor.
Defined.

(** * More about the constructor *)

(** X5.  In a constructed pull request the defaults stand in for absent
    keys only: [body], [body_html], [body_text], [mergeable_state] and
    [merge_commit_sha] are [''] and [mergeable] is [False] when the key is
    absent, and the value of the payload, null included, when it is there.
    The plain fields are the payload's value, [None] when absent. *)
Theorem defaults_stand_in_for_absent_keys_only d session o :
  PullRequest.new (JObj d) session = Ok o ->
  Forall (fun kd : string * Json =>
            (dict_lookup kd.1 d = None -> o !! kd.1 = Some (VJson kd.2))
            /\ (forall v, dict_lookup kd.1 d = Some v -> o !! kd.1 = Some (VJson v)))
         defaulted_fields
  /\ Forall (fun k =>
               (dict_lookup k d = None -> o !! k = Some VNone)
               /\ (forall v, dict_lookup k d = Some v -> o !! k = Some (VJson v)))
            plain_fields.
Proof.
  intros (d' & base & head & api & g & [= <-] & _ & ->)%new_ok_inv.
  unfold defaulted_fields, plain_fields. split.
  all: repeat (apply Forall_cons; split); try (by apply Forall_nil).
  all: cbn [fst snd]; unfold snapshot, get, get_default; lookup_attr.
  all: split; [by intros ->|by intros v ->].
Qed.

Lemma defaults_stand_in_for_absent_keys_only_witness :
  attrs sample_state !! "body_html" = Some (VJson (JStr EmptyString))
  /\ attrs sample_state !! "mergeable" = Some (VJson (JBool false))
  /\ attrs (state_of (JObj (("body", JNull) :: sample_fields)) authed) !! "body"
     = Some VNone.
Proof.
  assert (PullRequest.new (JObj sample_fields) authed = Ok (attrs sample_state))
    as Hnew by (apply state_of_new; vm_compute; reflexivity).
  assert (PullRequest.new (JObj (("body", JNull) :: sample_fields)) authed
          = Ok (attrs (state_of (JObj (("body", JNull) :: sample_fields)) authed)))
    as Hnull by (apply state_of_new; vm_compute; reflexivity).
  destruct (defaults_stand_in_for_absent_keys_only _ _ _ Hnew) as [Hd _].
  destruct (defaults_stand_in_for_absent_keys_only _ _ _ Hnull) as [Hd' _].
  unfold defaulted_fields in Hd, Hd'. rewrite !Forall_cons in Hd, Hd'.
  destruct Hd as (_ & [Hhtml _] & _ & [Hm _] & _).
  destruct Hd' as ([_ Hbody] & _).
  split; [apply Hhtml; reflexivity|]. split; [apply Hm; reflexivity|].
  apply Hbody. reflexivity.
Defined.

(** X6.  [user] and [assignee] are wrapped in [User] when they are truthy
    and otherwise stay what the payload had: an empty object, an empty
    string, zero or false is kept, not turned into [None].  [merged_by] is
    [None] for every falsy value. *)
Theorem empty_user_is_kept_but_empty_merger_is_none d session o :
  PullRequest.new (JObj d) session = Ok o ->
  (truthy (get d "user") = false -> o !! "user" = Some (VJson (get d "user")))
  /\ (truthy (get d "assignee") = false ->
      o !! "assignee" = Some (VJson (get d "assignee")))
  /\ (truthy (get d "merged_by") = false -> o !! "merged_by" = Some VNone)
  /\ (truthy (get d "user") = true ->
      o !! "user" = Some (VUser (User.__init__ (get d "user"))))
  /\ (truthy (get d "assignee") = true ->
      o !! "assignee" = Some (VUser (User.__init__ (get d "assignee"))))
  /\ (truthy (get d "merged_by") = true ->
      o !! "merged_by" = Some (VUser (User.__init__ (get d "merged_by")))).
Proof.
  intros (d' & base & head & api & g & [= <-] & _ & ->)%new_ok_inv.
  rewrite snapshot_user, snapshot_assignee, snapshot_merged_by. unfold user_attr.
  repeat split; by intros ->.
Qed.

Lemma empty_user_is_kept_but_empty_merger_is_none_witness :
  let o := attrs (state_of (JObj (("user", JObj []) :: ("merged_by", JObj [])
                                    :: sample_fields)) authed) in
  o !! "user" = Some (VJson (JObj [])) /\ o !! "merged_by" = Some VNone.
Proof.
  assert (PullRequest.new (JObj (("user", JObj []) :: ("merged_by", JObj [])
                                    :: sample_fields)) authed
          = Ok (attrs (state_of (JObj (("user", JObj []) :: ("merged_by", JObj [])
                                    :: sample_fields)) authed)))
    as Hnew by (apply state_of_new; vm_compute; reflexivity).
  destruct (empty_user_is_kept_but_empty_merger_is_none _ _ _ Hnew)
    as (Hu & _ & Hm & _).
  split; [apply Hu; reflexivity|apply Hm; reflexivity].
Defined.

(** X7.  Whatever the payload, the constructor leaves the same attributes
    on the object, the thirty-eight it assigns itself and the session kept
    by the base class, and it sends nothing. *)
Theorem constructed_attributes_are_fixed pull session o :
  PullRequest.new pull session = Ok o ->
  dom o = pull_request_attributes
  /\ size (dom o) = 39
  /\ (forall k, k ∈ pull_request_attributes -> is_Some (o !! k))
  /\ (forall st, sent (PullRequest.__init__ pull session st).2 = sent st).
Proof.
  intros Hn. pose proof (new_dom _ _ _ Hn) as Hd. rewrite Hd.
  split; [done|]. split; [by vm_compute|]. split.
  - intros k Hk. apply elem_of_dom. by rewrite Hd.
  - intros st. apply init_sent.
Qed.

Lemma constructed_attributes_are_fixed_witness :
  dom (attrs sample_state) = pull_request_attributes.
Proof.
  assert (PullRequest.new sample_pull authed = Ok (attrs sample_state))
    as Hnew by (apply state_of_new; vm_compute; reflexivity).
  apply (constructed_attributes_are_fixed _ _ _ Hnew).
Defined.

(** X8.  The links of every constructed pull request: [self] is the API
    URL, a string; [issue] is the API URL with every [pulls] replaced;
    [comments] is [issue] followed by [/comments]; [review_comments] is
    [self] followed by [/comments]; [html] is the attribute [html_url];
    there is no other link. *)
Theorem links_are_derived_from_the_api_url pull session o :
  PullRequest.new pull session = Ok o ->
  exists api issue,
    o !! "_api" = Some (VJson (JStr api))
    /\ issue = replace api "pulls" "issues"
    /\ link "self" o = Some (VJson (JStr api))
    /\ link "issue" o = Some (VJson (JStr issue))
    /\ link "comments" o = Some (VJson (JStr (issue +:+ "/comments")))
    /\ link "review_comments" o = Some (VJson (JStr (api +:+ "/comments")))
    /\ link "html" o = o !! "html_url"
    /\ (forall k, k ∉ link_names -> link k o = None).
Proof.
  intros (d & base & head & api & g & -> & _ & ->)%new_ok_inv.
  exists api, (replace api "pulls" "issues").
  unfold link. rewrite snapshot_links, snapshot_api.
  do 6 (split; [reflexivity|]). split.
  - unfold snapshot. by lookup_attr.
  - intros k Hk. unfold link_names in Hk. cbn [find fst snd fmap option_fmap option_map].
    repeat match goal with
           | |- context [String.eqb ?a k] =>
               destruct (String.eqb_spec a k) as [<-|_]; [set_solver|]
           end.
    done.
Qed.

Lemma links_are_derived_from_the_api_url_witness :
  link "comments" (attrs sample_state)
  = Some (VJson (JStr "https://api.github.com/repos/octocat/hello/issues/12/comments"))
  /\ link "html" (attrs sample_state)
     = Some (VJson (JStr "https://github.com/octocat/hello/pull/12")).
Proof.
  assert (PullRequest.new sample_pull authed = Ok (attrs sample_state))
    as Hnew by (apply state_of_new; vm_compute; reflexivity).
  destruct (links_are_derived_from_the_api_url _ _ _ Hnew)
    as (api & issue & Hapi & -> & _ & _ & Hc & _ & Hh & _).
  assert (attrs sample_state !! "_api"
          = Some (VJson (JStr "https://api.github.com/repos/octocat/hello/pulls/12")))
    as Hapi' by (vm_compute; reflexivity).
  rewrite Hapi' in Hapi. injection Hapi as <-.
  split; [exact Hc|]. rewrite Hh. vm_compute. reflexivity.
Defined.

(** X19.  Which exception the constructor raises for a payload whose [url]
    is absent or a string: that of the first step that fails, in the order
    of the source.  [None] for the payload raises [AttributeError]; for an
    object come the exception of the base endpoint, that of the head
    endpoint, that of the labels, [TypeError] for an [issue_url] that is not
    a string and [AttributeError] for one the pattern does not match. *)
Theorem constructor_raises_at_first_bad_step d session api :
  get_default d "url" (JStr EmptyString) = JStr api ->
  PullRequest.new JNull session = Raise AttributeError
  /\ (forall e, PullDestination.__init__ (get d "base") "Base" = Raise e ->
        PullRequest.new (JObj d) session = Raise e)
  /\ (forall base e,
        PullDestination.__init__ (get d "base") "Base" = Ok base ->
        PullDestination.__init__ (get d "head") "Head" = Raise e ->
        PullRequest.new (JObj d) session = Raise e)
  /\ (forall base head,
        PullDestination.__init__ (get d "base") "Base" = Ok base ->
        PullDestination.__init__ (get d "head") "Head" = Ok head ->
        (forall e,
           (elems ← py_iter (get d "labels"); PullRequest.label_objects elems) = Raise e ->
           PullRequest.new (JObj d) session = Raise e)
        /\ (py_iter (get d "labels") = Ok [] ->
            ((forall u, get d "issue_url" <> JStr u) ->
             PullRequest.new (JObj d) session = Raise TypeError)
            /\ (forall u, get d "issue_url" = JStr u ->
                  re_match issue_url_pattern u = None ->
                  PullRequest.new (JObj d) session = Raise AttributeError))).
Proof.
  intros Hurl. split; [by apply new_not_dict|].
  rewrite new_construct. unfold construct.
  split; [by intros e ->|]. split; [by intros base e -> ->|].
  intros base head -> ->. cbn [mbind Res_bind]. split.
  - intros e Hl. destruct (py_iter (get d "labels")); cbn [mbind Res_bind] in *;
      [by rewrite Hl|congruence].
  - intros ->. cbn [mbind Res_bind PullRequest.label_objects].
    rewrite Hurl. cbn [mbind Res_bind str_receiver]. split.
    + intros Hu. destruct (get d "issue_url"); try done. by destruct (Hu s).
    + intros u -> Hm. cbn [mbind Res_bind str_argument]. by rewrite Hm.
Qed.

Lemma constructor_raises_at_first_bad_step_witness :
  PullRequest.new (JObj (("base", JNull) :: ("issue_url", JNull) :: sample_fields)) VNone
  = Raise AttributeError
  /\ PullRequest.new (JObj (("issue_url", JNull) :: sample_fields)) VNone
     = Raise TypeError.
Proof.
  split.
  - destruct (constructor_raises_at_first_bad_step
                (("base", JNull) :: ("issue_url", JNull) :: sample_fields) VNone
                _ eq_refl) as (_ & H & _).
    apply H. reflexivity.
  - destruct (PullDestination.__init__ (sample_destination "master" "master") "Base")
      as [base|] eqn:Hb; [|discriminate Hb].
    destruct (PullDestination.__init__ (sample_destination "new-topic" "new-topic") "Head")
      as [head|] eqn:Hh; [|discriminate Hh].
    destruct (constructor_raises_at_first_bad_step
                (("issue_url", JNull) :: sample_fields) VNone _ eq_refl)
      as (_ & _ & _ & H).
    destruct (H base head Hb Hh) as [_ H1].
    destruct (H1 eq_refl) as [H2 _].
    apply H2. discriminate.
Defined.

(** X20.  The two URL templates: [labels_urlt] and [review_comment_url] are
    a template of the payload's URL when there is one, and [None] when it is
    absent, null or the empty string. *)
Theorem url_templates_need_a_url d session o :
  PullRequest.new (JObj d) session = Ok o ->
  (truthy (get d "labels_url") = true ->
   o !! "labels_urlt" = Some (VTemplate (get d "labels_url")))
  /\ (truthy (get d "labels_url") = false -> o !! "labels_urlt" = Some VNone)
  /\ (truthy (get d "review_comment_url") = true ->
      o !! "review_comment_url" = Some (VTemplate (get d "review_comment_url")))
  /\ (truthy (get d "review_comment_url") = false ->
      o !! "review_comment_url" = Some VNone).
Proof.
  intros (d' & base & head & api & g & [= <-] & _ & ->)%new_ok_inv.
  unfold snapshot. repeat split; intros Ht; lookup_attr; by rewrite Ht.
Qed.

Lemma url_templates_need_a_url_witness :
  let o := attrs (state_of (JObj (("labels_url", JStr EmptyString)
                 :: ("review_comment_url",
                     JStr "https://api.github.com/repos/octocat/hello/pulls/comments{/number}")
                 :: sample_fields)) authed) in
  o !! "labels_urlt" = Some VNone
  /\ o !! "review_comment_url"
     = Some (VTemplate
               (JStr "https://api.github.com/repos/octocat/hello/pulls/comments{/number}")).
Proof.
  assert (PullRequest.new (JObj (("labels_url", JStr EmptyString)
                 :: ("review_comment_url",
                     JStr "https://api.github.com/repos/octocat/hello/pulls/comments{/number}")
                 :: sample_fields)) authed
          = Ok (attrs (state_of (JObj (("labels_url", JStr EmptyString)
                 :: ("review_comment_url",
                     JStr "https://api.github.com/repos/octocat/hello/pulls/comments{/number}")
                 :: sample_fields)) authed)))
    as Hnew by (apply state_of_new; vm_compute; reflexivity).
  destruct (url_templates_need_a_url _ _ _ Hnew) as (_ & Hl & Hr & _).
  split; [apply Hl; reflexivity|apply Hr; reflexivity].
Defined.

(** X21.  Keys the constructor does not read are ignored: binding one more
    key that is not among the thirty-six it reads changes neither whether
    the constructor returns, nor the exception, nor the attributes it
    assigns. *)
Theorem unread_keys_are_ignored k v d session :
  k ∉ constructor_keys ->
  PullRequest.new (JObj ((k, v) :: d)) session = PullRequest.new (JObj d) session.
Proof.
  intros Hk.
  assert (Forall (fun k' => k' <> k) constructor_keys) as HF.
  { apply Forall_forall. by intros k' Hin ->. }
  unfold constructor_keys in HF. rewrite !Forall_cons in HF. destruct_and!.
  rewrite !new_construct. unfold construct, snapshot, get.
  by rewrite !get_default_cons_ne by done.
Qed.

Lemma unread_keys_are_ignored_witness :
  PullRequest.new (JObj (("draft", JBool true) :: sample_fields)) authed
  = PullRequest.new (JObj sample_fields) authed.
Proof.
  apply (unread_keys_are_ignored "draft" (JBool true) sample_fields authed).
  unfold constructor_keys. rewrite !not_elem_of_cons. 
  repeat (split; [discriminate|]). apply not_elem_of_nil.
Defined.

(** X18.  The position of a review comment is never [None] nor any other
    falsy value but the number 0: a position that is absent, null, false,
    zero or empty is stored as 0. *)
Theorem review_comment_position_is_zero_or_truthy d session o :
  ReviewComment.new (JObj d) session = Ok o ->
  exists p,
    o !! "position" = Some (VJson p)
    /\ (p = JNum 0 \/ truthy p = true)
    /\ (truthy (get d "position") = false -> p = JNum 0).
Proof.
  unfold ReviewComment.new, ReviewComment.__init__, BaseComment.__init__,
    GitHubCore.__init__.
  run.
  all: intros Ho%Ok_inj; subst o.
  all: eexists; (split; [by lookup_attr|]).
  all: unfold py_or; destruct (truthy (get d "position")) eqn:Hp.
  all: split; [by (left + right)|done].
Qed.

Lemma review_comment_position_is_zero_or_truthy_witness :
  exists o,
    ReviewComment.new (JObj [("id", JNum 10); ("position", JBool false)]) VNone = Ok o
    /\ o !! "position" = Some (VJson (JNum 0)).
Proof.
  destruct (ReviewComment.new (JObj [("id", JNum 10); ("position", JBool false)]) VNone)
    as [o|] eqn:Hnew; [|discriminate Hnew].
  exists o. split; [reflexivity|].
  destruct (review_comment_position_is_zero_or_truthy _ _ _ Hnew) as (p & Hp & _ & Hz).
  rewrite Hp, (Hz eq_refl). reflexivity.
Defined.

(** * More about the methods *)

Lemma boolean_cases rs t f :
  GitHubCore._boolean rs t f
  = if (status_code rs =? t)%Z then Ok true
    else if (status_code rs =? f)%Z then Ok false
    else Raise (TransportError (status_code rs)).
Proof. reflexivity. Qed.

(** X13.  An authenticated [update] with something to submit that is
    answered 404, or 200 with no body or a falsy one (an empty object, say),
    returns [False] and leaves the attributes alone.  The one PATCH was
    sent. *)
Theorem update_without_usable_answer_changes_nothing
    server (title body state : Json) st api :
  is_authenticated st = true ->
  attrs st !! "_api" = Some api ->
  is_null title && is_null body && is_null state = false ->
  let rq := patch_request api (update_payload title body state) in
  let out := PullRequest.update server (VJson title) (VJson body) (VJson state) st in
  (status_code (server rq) = 404%Z -> out = (Ok false, log rq st))
  /\ (status_code (server rq) = 200%Z ->
      truthy (default JNull (content (server rq))) = false ->
      out = (Ok false, log rq st))
  /\ attrs (log rq st) = attrs st
  /\ sent (log rq st) = sent st ++ [rq].
Proof.
  intros Ha Hapi Hsup rq out. subst out rq.
  rewrite update_eq, Ha, Hapi.
  destruct (update_payload title body state) as [|kv p] eqn:Hp.
  { apply update_payload_nil in Hp. congruence. }
  cbv zeta. unfold GitHubCore._json. rewrite boolean_cases.
  split; [|split; [|done]].
  - by intros ->.
  - intros -> Ht. cbn [Z.eqb Pos.eqb mbind Res_bind mret Res_ret]. by rewrite Ht.
Qed.

Lemma update_without_usable_answer_changes_nothing_witness :
  PullRequest.update (answer 200 (Some (JObj []))) (VJson (JStr "renamed")) VNone VNone
    sample_state
  = (Ok false,
     log (patch_request
            (VJson (JStr "https://api.github.com/repos/octocat/hello/pulls/12"))
            [("title", JStr "renamed")]) sample_state)
  /\ (PullRequest.update (answer 404 None) (VJson (JStr "renamed")) VNone VNone
        sample_state).1
     = Ok false.
Proof.
  assert (is_authenticated sample_state = true) as Hauth
    by (vm_compute; reflexivity).
  assert (attrs sample_state !! "_api"
          = Some (VJson (JStr "https://api.github.com/repos/octocat/hello/pulls/12")))
    as Hapi by (vm_compute; reflexivity).
  split.
  - destruct (update_without_usable_answer_changes_nothing
                (answer 200 (Some (JObj []))) (JStr "renamed") JNull JNull
                sample_state _ Hauth Hapi eq_refl) as (_ & H & _).
    apply H; reflexivity.
  - destruct (update_without_usable_answer_changes_nothing
                (answer 404 None) (JStr "renamed") JNull JNull
                sample_state _ Hauth Hapi eq_refl) as (H & _).
    rewrite H; reflexivity.
Defined.

(** [merge], unfolded. *)
Lemma merge_eq server (commit_message : Json) st api :
  is_authenticated st = true ->
  attrs st !! "_api" = Some (VJson (JStr api)) ->
  let rq := merge_request api commit_message in
  PullRequest.merge server (VJson commit_message) st
  = match GitHubCore._json (server rq) 200 with
    | Raise e => (Raise e, log rq st)
    | Ok json =>
        match py_getitem json "sha" with
        | Raise e => (Raise e, log rq st)
        | Ok sha =>
            let st' := {| attrs := <["merge_commit_sha" := VJson sha]> (attrs st);
                          sent := sent st ++ [rq] |} in
            match py_getitem json "merged" with
            | Raise e => (Raise e, st')
            | Ok merged => (Ok merged, st')
            end
        end
    end.
Proof.
  intros Ha Hapi rq. subst rq.
  unfold PullRequest.merge, requires_auth. rewrite Ha. cbv zeta.
  unfold merge_request. cbn [truthy_value].
  destruct (truthy commit_message).
  - rewrite run_assoc, run_lift.
    cbn [dumps to_json fmap Res_fmap mbind Res_bind mret Res_ret].
    rewrite run_ret, run_getattr, Hapi, run_lift. cbn [GitHubCore._build_url].
    unfold GitHubCore._put. rewrite run_send, run_lift.
    destruct (GitHubCore._json _ 200) as [json|e]; [|done].
    rewrite run_lift. destruct (py_getitem json "sha") as [sha|e]; [|done].
    rewrite run_setattr. rewrite run_lift_end. cbn [attrs sent].
    by destruct (py_getitem json "merged").
  - rewrite run_ret, run_getattr, Hapi, run_lift. cbn [GitHubCore._build_url].
    unfold GitHubCore._put. rewrite run_send, run_lift.
    destruct (GitHubCore._json _ 200) as [json|e]; [|done].
    rewrite run_lift. destruct (py_getitem json "sha") as [sha|e]; [|done].
    rewrite run_setattr. rewrite run_lift_end. cbn [attrs sent].
    by destruct (py_getitem json "merged").
Qed.

(** X14.  What [merge] does with a 200 or 404 answer it cannot use, for an
    authenticated caller.  On 404, or on 200 without a body, it raises
    [TypeError] (it indexes [None]); on 200 with an object that has no [sha]
    it raises [KeyError]; in both cases the attributes are untouched.  On
    200 with an object that has [sha] but no [merged] it raises [KeyError]
    after [merge_commit_sha] has been overwritten.  One PUT was sent in
    every case. *)
Theorem merge_with_unusable_answer server (commit_message : Json) st api :
  is_authenticated st = true ->
  attrs st !! "_api" = Some (VJson (JStr api)) ->
  let rq := merge_request api commit_message in
  let out := PullRequest.merge server (VJson commit_message) st in
  (status_code (server rq) = 404%Z
   \/ (status_code (server rq) = 200%Z /\ content (server rq) = None) ->
   out = (Raise TypeError, log rq st))
  /\ (forall body, status_code (server rq) = 200%Z ->
        content (server rq) = Some (JObj body) ->
        dict_lookup "sha" body = None ->
        out = (Raise KeyError, log rq st))
  /\ (forall body sha, status_code (server rq) = 200%Z ->
        content (server rq) = Some (JObj body) ->
        dict_lookup "sha" body = Some sha ->
        dict_lookup "merged" body = None ->
        out = (Raise KeyError,
               {| attrs := <["merge_commit_sha" := VJson sha]> (attrs st);
                  sent := sent st ++ [rq] |}))
  /\ attrs (log rq st) = attrs st
  /\ sent (log rq st) = sent st ++ [rq].
Proof.
  intros Ha Hapi rq out. subst out. rewrite (merge_eq _ _ _ _ Ha Hapi). fold rq.
  cbv zeta. unfold GitHubCore._json. rewrite boolean_cases.
  split; [|split; [|split; [|done]]].
  - intros [->|[-> ->]]; reflexivity.
  - intros body -> -> Hsha. cbn. by rewrite Hsha.
  - intros body sha -> -> Hsha Hm. cbn. by rewrite Hsha, Hm.
Qed.

Lemma merge_with_unusable_answer_witness :
  PullRequest.merge (answer 200 (Some (JObj [("sha", JStr "abc123")])))
    (VJson (JStr "release")) sample_state
  = (Raise KeyError,
     {| attrs := <["merge_commit_sha" := VJson (JStr "abc123")]> (attrs sample_state);
        sent := [merge_request "https://api.github.com/repos/octocat/hello/pulls/12"
                   (JStr "release")] |})
  /\ (PullRequest.merge (answer 404 None) (VJson (JStr "release")) sample_state).1
     = Raise TypeError.
Proof.
  assert (is_authenticated sample_state = true) as Hauth
    by (vm_compute; reflexivity).
  assert (attrs sample_state !! "_api"
          = Some (VJson (JStr "https://api.github.com/repos/octocat/hello/pulls/12")))
    as Hapi by (vm_compute; reflexivity).
  split.
  - destruct (merge_with_unusable_answer
                (answer 200 (Some (JObj [("sha", JStr "abc123")]))) (JStr "release")
                sample_state _ Hauth Hapi) as (_ & _ & H & _).
    apply (H [("sha", JStr "abc123")] (JStr "abc123")); reflexivity.
  - destruct (merge_with_unusable_answer (answer 404 None) (JStr "release")
                sample_state _ Hauth Hapi) as (H & _).
    rewrite H; [reflexivity|]. left. reflexivity.
Defined.

(** X17.  [diff] and [patch] need no credentials and never change the
    object.  Each sends one GET to the API URL, with its own [Accept]
    header, and returns the body on 200 and [None] on 404. *)
Theorem diff_and_patch_fetch_the_api_url server st :
  attrs (PullRequest.diff server st).2 = attrs st
  /\ attrs (PullRequest.patch server st).2 = attrs st
  /\ (forall api,
        attrs st !! "_api" = Some api ->
        let rd := server [("Accept", "application/vnd.github.diff")]
                    (download_request api) in
        let rp := server [("Accept", "application/vnd.github.patch")]
                    (download_request api) in
        sent (PullRequest.diff server st).2 = sent st ++ [download_request api]
        /\ sent (PullRequest.patch server st).2 = sent st ++ [download_request api]
        /\ (status_code rd = 200%Z ->
            (PullRequest.diff server st).1 = Ok (Some (content rd)))
        /\ (status_code rd = 404%Z -> (PullRequest.diff server st).1 = Ok None)
        /\ (status_code rp = 200%Z ->
            (PullRequest.patch server st).1 = Ok (Some (content rp)))
        /\ (status_code rp = 404%Z -> (PullRequest.patch server st).1 = Ok None)).
Proof.
  unfold PullRequest.diff, PullRequest.patch, GitHubCore._get_headers.
  rewrite !run_getattr.
  destruct (attrs st !! "_api") as [api|]; [|split; [done|split; [done|done]]].
  rewrite !run_send, !run_lift, !boolean_cases. cbn [attrs sent].
  assert (forall rs : Response,
            match (if (status_code rs =? 200)%Z then Ok true
                   else if (status_code rs =? 404)%Z then Ok false
                   else Raise (TransportError (status_code rs))) with
            | Ok a => @mret M _ _ (if a : bool then Some (content rs) else None)
                        (log (download_request api) st)
            | Raise e => (Raise e, log (download_request api) st)
            end
            = (if (status_code rs =? 200)%Z then Ok (Some (content rs))
               else if (status_code rs =? 404)%Z then Ok None
               else Raise (TransportError (status_code rs)),
               log (download_request api) st)) as Hrs.
  { intros rs. destruct (status_code rs =? 200)%Z; [done|].
    by destruct (status_code rs =? 404)%Z. }
  fold (download_request api). fold (log (download_request api) st).
  rewrite !Hrs. split; [done|]. split; [done|].
  intros api' [= <-]. cbv zeta. cbn [fst snd log sent].
  do 2 (split; [done|]).
  repeat split; by intros ->.
Qed.

Lemma diff_and_patch_fetch_the_api_url_witness :
  (PullRequest.diff by_accept anonymous_state).1
  = Ok (Some (Some (JStr "diff --git a/f b/f")))
  /\ (PullRequest.patch by_accept anonymous_state).1 = Ok None.
Proof.
  assert (attrs anonymous_state !! "_api"
          = Some (VJson (JStr "https://api.github.com/repos/octocat/hello/pulls/12")))
    as Hapi by (vm_compute; reflexivity).
  destruct (diff_and_patch_fetch_the_api_url by_accept anonymous_state)
    as (_ & _ & H).
  destruct (H _ Hapi) as (_ & _ & Hd & _ & _ & Hp).
  split; [apply Hd; reflexivity|apply Hp; reflexivity].
Defined.

(** * Rebuilding in place *)

(** The constructor run on a live object with a payload whose labels it
    cannot take: it raises there, with the assignments made so far lying
    over the previous attributes. *)
Lemma init_stops_at_labels d session base head e st :
  PullDestination.__init__ (get d "base") "Base" = Ok base ->
  PullDestination.__init__ (get d "head") "Head" = Ok head ->
  (elems ← py_iter (get d "labels"); PullRequest.label_objects elems) = Raise e ->
  PullRequest.__init__ (JObj d) session st
  = (Raise e, {| attrs := before_labels d session base head ∪ attrs st;
                 sent := sent st |}).
Proof.
  intros Hb Hh Hl. destruct st as [a w].
  unfold PullRequest.__init__, GitHubCore.__init__. cbv zeta.
  destruct (py_iter (get d "labels")) as [elems|e'] eqn:Hi;
    cbn [mbind Res_bind] in Hl.
  - run. unfold before_labels.
    rewrite <- !insert_union_l, (left_id_L ∅ (∪)). reflexivity.
  - injection Hl as <-. run. unfold before_labels.
    rewrite <- !insert_union_l, (left_id_L ∅ (∪)). reflexivity.
Qed.

Lemma before_labels_dom d session base head :
  dom (before_labels d session base head)
  = list_to_set ["_session"; "_api"; "base"; "body"; "body_html"; "body_text";
                 "additions"; "deletions"; "closed_at"; "comments"; "comments_url";
                 "commits"; "commits_url"; "created_at"; "diff_url"; "head";
                 "html_url"; "id"].
Proof.
  unfold before_labels. rewrite !dom_insert_L, dom_empty_L.
  cbn [list_to_set foldr]. set_solver.
Qed.

(** X12.  [update] is not atomic.  When the server answers 200 with an
    object whose endpoints are fine but whose labels the constructor cannot
    take (a non-empty list, or none at all), [update] raises the
    constructor's exception after the PATCH was sent, and the object is left
    half rebuilt: the eighteen attributes assigned before the labels
    ([_api], [body], [id], the endpoints, ...) are those of the answer, all
    the others ([title], [state], [labels], [links], ...) are the old
    ones. *)
Theorem rejected_update_leaves_object_half_rebuilt
    server (title body state : Json) st api session d base head e :
  is_authenticated st = true ->
  attrs st !! "_session" = Some session ->
  attrs st !! "_api" = Some api ->
  is_null title && is_null body && is_null state = false ->
  server (patch_request api (update_payload title body state))
  = {| status_code := 200; content := Some (JObj d) |} ->
  PullDestination.__init__ (get d "base") "Base" = Ok base ->
  PullDestination.__init__ (get d "head") "Head" = Ok head ->
  (elems ← py_iter (get d "labels"); PullRequest.label_objects elems) = Raise e ->
  let out := PullRequest.update server (VJson title) (VJson body) (VJson state) st in
  out = (Raise e,
         {| attrs := before_labels d session base head ∪ attrs st;
            sent := sent st ++ [patch_request api (update_payload title body state)] |})
  /\ attrs out.2 !! "_api" = Some (VJson (get_default d "url" (JStr EmptyString)))
  /\ attrs out.2 !! "body" = Some (VJson (get_default d "body" (JStr EmptyString)))
  /\ attrs out.2 !! "id" = Some (VJson (get d "id"))
  /\ attrs out.2 !! "title" = attrs st !! "title"
  /\ attrs out.2 !! "state" = attrs st !! "state"
  /\ attrs out.2 !! "links" = attrs st !! "links"
  /\ (forall k, k ∉ dom (before_labels d session base head) ->
        attrs out.2 !! k = attrs st !! k)
  /\ size (dom (before_labels d session base head)) = 18.
Proof.
  intros Ha Hse Hapi Hsup Hrs Hb Hh Hl out.
  assert (truthy (JObj d) = true) as Ht.
  { destruct d; [discriminate Hb|done]. }
  assert (out = (Raise e,
         {| attrs := before_labels d session base head ∪ attrs st;
            sent := sent st ++ [patch_request api (update_payload title body state)] |}))
    as ->.
  { subst out. rewrite update_eq, Ha, Hapi, Hse.
    destruct (update_payload title body state) as [|kv p] eqn:Hp.
    { apply update_payload_nil in Hp. congruence. }
    cbv zeta. rewrite (json_200 _ _ Hrs), Ht.
    by rewrite (init_stops_at_labels _ _ _ _ _ _ Hb Hh Hl). }
  cbn [snd attrs]. split; [done|].
  assert (forall k, k ∉ dom (before_labels d session base head) ->
            (before_labels d session base head ∪ attrs st) !! k = attrs st !! k) as Hold.
  { intros k Hk. apply not_elem_of_dom in Hk. rewrite lookup_union, Hk.
    by destruct (attrs st !! k). }
  assert (forall k, before_labels d session base head !! k = None ->
            (before_labels d session base head ∪ attrs st) !! k = attrs st !! k) as Hnone.
  { intros k Hk. by apply lookup_union_r. }
  split; [|split; [|split]].
  1-3: apply lookup_union_Some_l; unfold before_labels; by lookup_attr.
  split; [|split; [|split; [|split]]].
  1-3: apply Hnone; unfold before_labels; by rewrite !lookup_insert_ne.
  - exact Hold.
  - rewrite before_labels_dom. by vm_compute.
Qed.

Lemma rejected_update_leaves_object_half_rebuilt_witness :
  let out := PullRequest.update (answer 200 (Some labelled_pull))
               (VJson (JStr "renamed")) (VJson (JStr "new text")) VNone sample_state in
  out.1 = Raise NameError
  /\ attrs out.2 !! "body" = Some (VJson (JStr "new text"))
  /\ attrs out.2 !! "title" = Some (VJson (JStr "new-feature")).
Proof.
  assert (is_authenticated sample_state = true) as Hauth
    by (vm_compute; reflexivity).
  assert (attrs sample_state !! "_session" = Some authed) as Hse
    by (vm_compute; reflexivity).
  assert (attrs sample_state !! "_api"
          = Some (VJson (JStr "https://api.github.com/repos/octocat/hello/pulls/12")))
    as Hapi by (vm_compute; reflexivity).
  assert (attrs sample_state !! "title" = Some (VJson (JStr "new-feature"))) as Htitle
    by (vm_compute; reflexivity).
  destruct (PullDestination.__init__ (sample_destination "master" "master") "Base")
    as [base|] eqn:Hb; [|discriminate Hb].
  destruct (PullDestination.__init__ (sample_destination "new-topic" "new-topic") "Head")
    as [head|] eqn:Hh; [|discriminate Hh].
  destruct (rejected_update_leaves_object_half_rebuilt
              (answer 200 (Some labelled_pull)) (JStr "renamed") (JStr "new text") JNull
              sample_state _ _
              (("labels", JList [JObj [("name", JStr "bug")]])
               :: ("title", JStr "renamed") :: ("body", JStr "new text") :: sample_fields)
              base head NameError Hauth Hse Hapi eq_refl eq_refl Hb Hh eq_refl)
    as (Hout & _ & Hbody & _ & Ht & _).
  cbv zeta. split; [by rewrite Hout|]. split; [exact Hbody|].
  rewrite Ht. exact Htitle.
Defined.

(** The session an object keeps, for the session it was given. *)
Lemma new_session pull session o :
  PullRequest.new pull session = Ok o ->
  o !! "_session"
  = Some (match session with VNone => VSession anonymous | s => s end).
Proof.
  intros (d & base & head & api & g & -> & _ & ->)%new_ok_inv.
  unfold snapshot. by lookup_attr.
Qed.

(** Handing the constructor the session an object kept is handing it the
    session the object was built with. *)
Lemma new_kept_session pull session :
  PullRequest.new pull (match session with VNone => VSession anonymous | s => s end)
  = PullRequest.new pull session.
Proof.
  destruct pull as [| | | | |d]; try (by rewrite !new_not_dict).
  rewrite !new_construct. unfold construct.
  destruct (PullDestination.__init__ (get d "base") "Base"); [|done].
  destruct (PullDestination.__init__ (get d "head") "Head"); [|done].
  destruct (py_iter (get d "labels")); [|done]. cbn [mbind Res_bind].
  destruct (PullRequest.label_objects _); [|done]. cbn [mbind Res_bind].
  destruct (str_receiver _); [|done]. cbn [mbind Res_bind].
  destruct (str_argument _); [|done]. cbn [mbind Res_bind].
  destruct (PullRequest.groups _); [|done]. cbn [mbind Res_bind mret Res_ret].
  unfold snapshot. by destruct session as [[]| | | | | | | |].
Qed.

Lemma update_eq_ok pull st :
  PullRequest._update_ pull st
  = match attrs st !! "_session" with
    | Some session => PullRequest.__init__ pull session st
    | None => (Raise AttributeError, st)
    end.
Proof. unfold PullRequest._update_. apply run_getattr. Qed.

(** X16.  Rebuilding is idempotent.  [_update_] with the payload an object
    was constructed from changes nothing, and after an [_update_] that
    returned, a second one with the same payload returns and changes
    nothing.  It never sends anything. *)
Theorem rebuilding_twice_is_rebuilding_once pull :
  (forall session o w,
     PullRequest.new pull session = Ok o ->
     PullRequest._update_ pull {| attrs := o; sent := w |}
     = (Ok tt, {| attrs := o; sent := w |}))
  /\ (forall st st1,
        PullRequest._update_ pull st = (Ok tt, st1) ->
        PullRequest._update_ pull st1 = (Ok tt, st1) /\ sent st1 = sent st).
Proof.
  split.
  - intros session o w Hn. rewrite update_eq_ok. cbn [attrs].
    rewrite (new_session _ _ _ Hn).
    rewrite (init_ok pull _ o); [|by rewrite new_kept_session].
    cbn [attrs sent]. by rewrite (idemp_L (∪) o).
  - intros st st1. rewrite !update_eq_ok.
    destruct (attrs st !! "_session") as [session|] eqn:Hse; [|done].
    intros Hi. pose proof (init_outcome pull session st) as Ho.
    rewrite Hi in Ho. cbn [fst] in Ho.
    destruct (PullRequest.new pull session) as [o|] eqn:Hn; [|done].
    rewrite (init_ok _ _ _ _ Hn) in Hi. injection Hi as <-. cbn [attrs sent].
    rewrite (lookup_union_Some_l _ _ _ _ (new_session _ _ _ Hn)).
    rewrite (init_ok pull _ o); [|by rewrite new_kept_session].
    cbn [attrs sent]. split; [|done].
    by rewrite (assoc_L (∪)), (idemp_L (∪) o).
Qed.

Lemma rebuilding_twice_is_rebuilding_once_witness :
  PullRequest._update_ sample_pull sample_state = (Ok tt, sample_state).
Proof.
  assert (PullRequest.new sample_pull authed = Ok (attrs sample_state))
    as Hnew by (apply state_of_new; vm_compute; reflexivity).
  destruct (rebuilding_twice_is_rebuilding_once sample_pull) as [H _].
  exact (H authed (attrs sample_state) [] Hnew).
Defined.

Lemma is_authenticated_session st session :
  is_authenticated st = true -> attrs st !! "_session" = Some session ->
  exists s, session = VSession s /\ authenticated s = true.
Proof.
  unfold is_authenticated. intros Ha Hs. rewrite Hs in Ha.
  destruct session; try done. eauto.
Qed.

(** X15.  [close] followed by [reopen].  When [close] succeeds (the server
    answers its PATCH with 200 and a body the constructor accepts), the
    rebuilt object still carries the credentials, and [reopen] on it sends
    a PATCH to the API URL of that answer with the title and the body of
    that answer, not those the object had before, and [state] ['open']. *)
Theorem reopen_after_close_uses_the_answer
    server st (t b : Json) api session response o :
  is_authenticated st = true ->
  attrs st !! "title" = Some (VJson t) ->
  attrs st !! "body" = Some (VJson b) ->
  attrs st !! "_api" = Some api ->
  attrs st !! "_session" = Some session ->
  server (patch_request api (update_payload t b (JStr "closed")))
  = {| status_code := 200; content := Some response |} ->
  PullRequest.new response session = Ok o ->
  exists st1 d api',
    PullRequest.close server st = (Ok true, st1)
    /\ response = JObj d
    /\ attrs st1 = o ∪ attrs st
    /\ is_authenticated st1 = true
    /\ attrs st1 !! "title" = Some (VJson (get d "title"))
    /\ attrs st1 !! "body" = Some (VJson (get_default d "body" (JStr EmptyString)))
    /\ attrs st1 !! "_api" = Some (VJson (JStr api'))
    /\ get_default d "url" (JStr EmptyString) = JStr api'
    /\ sent (PullRequest.reopen server st1).2
       = sent st
         ++ [patch_request api (update_payload t b (JStr "closed"));
             patch_request (VJson (JStr api'))
               (update_payload (get d "title")
                  (get_default d "body" (JStr EmptyString)) (JStr "open"))].
Proof.
  intros Ha Ht Hb Hapi Hse Hrs Hnew.
  destruct (is_authenticated_session _ _ Ha Hse) as (s & -> & Hs).
  pose proof (new_session _ _ _ Hnew) as Hos. cbv iota in Hos.
  destruct (new_ok_inv _ _ _ Hnew) as (d & base & head & api' & g & -> & [_ _ _ Hu _] & Ho).
  assert (o !! "title" = Some (VJson (get d "title"))) as Hot
    by (rewrite Ho; unfold snapshot; by lookup_attr).
  assert (o !! "body" = Some (VJson (get_default d "body" (JStr EmptyString)))) as Hob
    by (rewrite Ho; unfold snapshot; by lookup_attr).
  assert (o !! "_api" = Some (VJson (JStr api'))) as Hoa
    by (rewrite Ho; apply snapshot_api).
  clear Ho.
  set (rq := patch_request api (update_payload t b (JStr "closed"))).
  exists {| attrs := o ∪ attrs st; sent := sent st ++ [rq] |}, d, api'.
  assert (PullRequest.close server st
          = (Ok true, {| attrs := o ∪ attrs st; sent := sent st ++ [rq] |})) as Hclose.
  { destruct (close_eq server st _ _ Ha Ht Hb) as [-> _].
    rewrite update_eq, Ha, Hapi, Hse.
    destruct (update_payload_state t b "closed") as [Hp _]. fold rq.
    destruct (update_payload t b (JStr "closed")) as [|kv p] eqn:Hpl; [done|].
    cbv zeta. rewrite (json_200 _ _ Hrs), (new_ok_truthy _ _ _ Hnew).
    by rewrite (init_ok _ _ _ _ Hnew). }
  split; [exact Hclose|]. split; [done|]. cbn [attrs].
  split; [done|].
  assert (is_authenticated {| attrs := o ∪ attrs st; sent := sent st ++ [rq] |} = true)
    as Ha1.
  { unfold is_authenticated. cbn [attrs].
    by rewrite (lookup_union_Some_l _ _ _ _ Hos). }
  split; [exact Ha1|].
  pose proof (lookup_union_Some_l o (attrs st) _ _ Hot) as Ht1.
  pose proof (lookup_union_Some_l o (attrs st) _ _ Hob) as Hb1.
  pose proof (lookup_union_Some_l o (attrs st) _ _ Hoa) as Hapi1.
  do 4 (split; [done|]).
  destruct (close_eq server {| attrs := o ∪ attrs st; sent := sent st ++ [rq] |}
              _ _ Ha1 Ht1 Hb1) as [_ ->].
  destruct (update_payload_state (get d "title") (get_default d "body" (JStr EmptyString)) "open")
    as [Hp _].
  rewrite (update_sent server _ _ _ _ _ Ha1 Hp Hapi1). cbn [sent].
  by rewrite <- (assoc_L (++)).
Qed.

Lemma reopen_after_close_uses_the_answer_witness :
  exists st1,
    PullRequest.close
      (answer 200 (Some (JObj (("title", JStr "renamed") :: sample_fields))))
      sample_state = (Ok true, st1)
    /\ is_authenticated st1 = true
    /\ attrs st1 !! "title" = Some (VJson (JStr "renamed")).
Proof.
  assert (is_authenticated sample_state = true) as Hauth
    by (vm_compute; reflexivity).
  assert (attrs sample_state !! "_session" = Some authed) as Hse
    by (vm_compute; reflexivity).
  assert (attrs sample_state !! "_api"
          = Some (VJson (JStr "https://api.github.com/repos/octocat/hello/pulls/12")))
    as Hapi by (vm_compute; reflexivity).
  assert (attrs sample_state !! "title" = Some (VJson (JStr "new-feature"))) as Ht
    by (vm_compute; reflexivity).
  assert (attrs sample_state !! "body"
          = Some (VJson (JStr "Please pull these awesome changes"))) as Hb
    by (vm_compute; reflexivity).
  assert (PullRequest.new (JObj (("title", JStr "renamed") :: sample_fields)) authed
          = Ok (attrs (state_of (JObj (("title", JStr "renamed") :: sample_fields)) authed)))
    as Hnew by (apply state_of_new; vm_compute; reflexivity).
  destruct (reopen_after_close_uses_the_answer
              (answer 200 (Some (JObj (("title", JStr "renamed") :: sample_fields))))
              sample_state _ _ _ _ _ _ Hauth Ht Hb Hapi Hse eq_refl Hnew)
    as (st1 & d & api' & Hclose & [= <-] & _ & Ha1 & Ht1 & _).
  exists st1. split; [exact Hclose|]. split; [exact Ha1|]. exact Ht1.
Defined.
